(** * bilby_tutorial: the notebook's own code, embedded and verified

    The notebook [bilby_tutorial.ipynb] defines two model functions
    ([line], [quadratic]), one class ([CustomGaussianLikelihood]), three
    prior dictionaries and a handful of glue cells around the [bilby]
    inference library.

    Number model.  The notebook computes on numpy [float64] arrays.  Here
    every number is an ideal real ([R]): rounding, overflow, infinities and
    NaN are outside the embedding, and a 1-D numpy array is a [list R].
    Where numpy would yield [inf] or [nan] (a zero divisor, the logarithm
    of zero) the model has the conventional value of the total functions
    on [R].  The objects the code handles ([None], a number, an array) are
    the type [pyobj]; an operation that can raise returns a [res]; a method
    is a function of the receiver that also gives the receiver back; a
    code cell is a script over a record of the library calls it makes. *)

From Stdlib Require Import Reals Lra List.
From stdpp Require Import base option list strings gmap.
Import ListNotations.

Open Scope R_scope.

(** ** Python objects, exceptions and the operators the notebook uses *)

Module Py.

(** The exceptions the embedded operations can raise; [LibraryError]
    stands for whatever a library call may raise of its own. *)
Inductive exn : Type :=
| KeyError (key : string)
| TypeError
| ValueError
| AttributeError (name : string)
| LibraryError (msg : string).

(** Outcome of evaluating a Python expression: a value or a raised
    exception. *)
Inductive res (A : Type) : Type :=
| Ok (a : A)
| Raise (e : exn).
Arguments Ok {A} a.
Arguments Raise {A} e.

#[global] Instance res_ret : MRet res := fun A a => Ok a.
#[global] Instance res_bind : MBind res := fun A B k m =>
  match m with
  | Ok a => k a
  | Raise e => Raise e
  end.

(** The objects that flow through the notebook's own code: [None], a
    number, or a 1-D numpy array of numbers. *)
Inductive pyobj : Type :=
| PyNone
| Float (r : R)
| Array (xs : list R).

(** numpy broadcasting of two 1-D arrays: equal lengths combine entry by
    entry, a length-1 array is stretched, anything else is a
    [ValueError] (operands could not be broadcast together). *)
Definition broadcast2 (f : R -> R -> R) (xs ys : list R) : res (list R) :=
  if decide (length xs = length ys) then Ok (zip_with f xs ys)
  else match xs, ys with
       | [x], _ => Ok (f x <$> ys)
       | _, [y] => Ok ((fun x => f x y) <$> xs)
       | _, _ => Raise ValueError
       end.

(** A binary arithmetic operator on objects.  A scalar with an array is
    applied entrywise.  [None] with a number, or with [None], is a
    [TypeError]; [None] with an array is applied entrywise as well, which
    raises [TypeError] at the first entry, so that only an empty array
    goes through, giving an empty array. *)
Definition binop (f : R -> R -> R) (u v : pyobj) : res pyobj :=
  match u with
  | PyNone =>
      match v with
      | Array [] => Ok (Array [])
      | _ => Raise TypeError
      end
  | Float a =>
      match v with
      | PyNone => Raise TypeError
      | Float b => Ok (Float (f a b))
      | Array ys => Ok (Array (f a <$> ys))
      end
  | Array xs =>
      match v with
      | PyNone =>
          match xs with
          | [] => Ok (Array [])
          | _ :: _ => Raise TypeError
          end
      | Float b => Ok (Array ((fun x => f x b) <$> xs))
      | Array ys =>
          match broadcast2 f xs ys with
          | Ok zs => Ok (Array zs)
          | Raise e => Raise e
          end
      end
  end.

(** A unary numeric function (negation, a numpy ufunc, a power with a
    literal exponent). *)
Definition unop (f : R -> R) (u : pyobj) : res pyobj :=
  match u with
  | PyNone => Raise TypeError
  | Float a => Ok (Float (f a))
  | Array xs => Ok (Array (f <$> xs))
  end.

Definition py_add : pyobj -> pyobj -> res pyobj := binop Rplus.
Definition py_sub : pyobj -> pyobj -> res pyobj := binop Rminus.
Definition py_mul : pyobj -> pyobj -> res pyobj := binop Rmult.
(** Division whose divisor is a numpy value: numpy's [true_divide], which
    does not raise on a zero divisor. *)
Definition np_div : pyobj -> pyobj -> res pyobj := binop Rdiv.
(** [u ** k] for a literal natural exponent [k]. *)
Definition py_pow (u : pyobj) (k : nat) : res pyobj := unop (fun a => a ^ k) u.
Definition py_neg : pyobj -> res pyobj := unop Ropp.
Definition np_sqrt : pyobj -> res pyobj := unop sqrt.
Definition np_log : pyobj -> res pyobj := unop ln.
Definition np_pi : R := PI.

(** [np.sum]: the sum of the entries (a scalar is its own sum). *)
Definition np_sum (u : pyobj) : res pyobj :=
  match u with
  | PyNone => Raise TypeError
  | Float a => Ok (Float a)
  | Array xs => Ok (Float (foldr Rplus 0 xs))
  end.

(** [np.linspace(start, stop, num)] with the default [endpoint=True]:
    [num] evenly spaced points, [start + i * step] with
    [step = (stop - start) / (num - 1)]. *)
Definition np_linspace (start stop : R) (num : nat) : pyobj :=
  Array ((fun i : nat => start + INR i * ((stop - start) / INR (num - 1)))
           <$> seq 0 num).

(** [d[key]] on a dictionary: [KeyError] when the key is absent. *)
Definition getitem (d : gmap string pyobj) (key : string) : res pyobj :=
  match d !! key with
  | Some v => Ok v
  | None => Raise (KeyError key)
  end.

End Py.

(** ** Model functions (code cells 10 and 42) *)

Module Models.
Import Py.

(** [def line(x, a, c): return (a * x) + c] *)
Definition line (x a c : pyobj) : res pyobj :=
  ax ← py_mul a x;
  py_add ax c.

(** [def quadratic(x, a, b, c): return (a * x**2) + (b * x) + c] *)
Definition quadratic (x a b c : pyobj) : res pyobj :=
  x2 ← py_pow x 2;
  ax2 ← py_mul a x2;
  bx ← py_mul b x;
  s ← py_add ax2 bx;
  py_add s c.

End Models.

(** ** The fake-data cell (code cell 12) *)

Module FakeData.
Import Py Models.

(** [n = 10] *)
Definition n : nat := 10.

(** [x = np.linspace(-10, 10, n)] *)
Definition x : pyobj := np_linspace (-10) 10 n.

(** [y = line(x, 0.5, 1)] *)
Definition y : res pyobj := line x (Float 0.5) (Float 1).

(** [data = y + noise], for the array [noise] drawn by
    [np.random.uniform(-1.5, 1.5, n)]. *)
Definition data (noise : pyobj) : res pyobj :=
  y0 ← y;
  py_add y0 noise.

End FakeData.

(** ** Example 2: the class [CustomGaussianLikelihood] (code cell 29) *)

Module Likelihood.
Import Py.

(** A model function as the class calls it: [func(x, a, c)]. *)
Definition pyfunc : Type := pyobj -> pyobj -> pyobj -> res pyobj.

(** The instance attributes.  [x], [y], [y_err], [func] and [parameters]
    are bound by [__init__]; [sigma], [model] and [residual] do not exist
    until [log_likelihood] first assigns them. *)
Record CustomGaussianLikelihood : Type := {
  x : pyobj;
  y : pyobj;
  y_err : pyobj;
  func : pyfunc;
  parameters : gmap string pyobj;
  sigma : option pyobj;
  model : option pyobj;
  residual : option pyobj
}.

(** The methods the class body defines, in source order. *)
Definition defined_methods : list string := ["__init__"; "log_likelihood"].

(** What running a method on a receiver produces: the value returned or
    the exception raised, the receiver afterwards (attribute assignments
    made before an exception stay), and the log of the callee invocations
    in evaluation order, [None] for a callee that returned and [Some e] for
    one that raised [e]. *)
Record outcome (A : Type) : Type := {
  returned : res A;
  self_after : CustomGaussianLikelihood;
  calls : list (option exn)
}.
Arguments returned {A} o.
Arguments self_after {A} o.
Arguments calls {A} o.

Definition method (A : Type) : Type := CustomGaussianLikelihood -> outcome A.

(** The callee log [l] of what ran before, put in front of an outcome. *)
Definition log_before {A : Type} (l : list (option exn)) (o : outcome A)
    : outcome A :=
  {| returned := returned o; self_after := self_after o;
     calls := l ++ calls o |}.

#[global] Instance method_ret : MRet method := fun A a self =>
  {| returned := Ok a; self_after := self; calls := [] |}.

(** Sequencing: the rest runs only when the first part returned; an
    exception ends the method. *)
#[global] Instance method_bind : MBind method := fun A B k m self =>
  let o := m self in
  match returned o with
  | Ok a => log_before (calls o) (k a (self_after o))
  | Raise e =>
      {| returned := Raise e; self_after := self_after o; calls := calls o |}
  end.

Definition raised {A : Type} (r : res A) : option exn :=
  match r with
  | Ok _ => None
  | Raise e => Some e
  end.

(** Invoking a callee (an operator, a numpy function, [self.func]) whose
    evaluation gives [r]. *)
Definition call {A : Type} (r : res A) : method A := fun self =>
  {| returned := r; self_after := self; calls := [raised r] |}.

(** Reading an attribute bound by [__init__]. *)
Definition attr {A : Type} (get : CustomGaussianLikelihood -> A) : method A :=
  fun self => {| returned := Ok (get self); self_after := self; calls := [] |}.

(** Reading an attribute that exists only once assigned. *)
Definition attr_opt (name : string)
    (get : CustomGaussianLikelihood -> option pyobj) : method pyobj :=
  fun self =>
    call (match get self with
          | Some v => Ok v
          | None => Raise (AttributeError name)
          end) self.

Definition set_sigma (v : pyobj) : method unit := fun self =>
  {| returned := Ok tt;
     self_after := {| x := x self; y := y self; y_err := y_err self;
                      func := func self; parameters := parameters self;
                      sigma := Some v; model := model self;
                      residual := residual self |};
     calls := [] |}.

Definition set_model (v : pyobj) : method unit := fun self =>
  {| returned := Ok tt;
     self_after := {| x := x self; y := y self; y_err := y_err self;
                      func := func self; parameters := parameters self;
                      sigma := sigma self; model := Some v;
                      residual := residual self |};
     calls := [] |}.

Definition set_residual (v : pyobj) : method unit := fun self =>
  {| returned := Ok tt;
     self_after := {| x := x self; y := y self; y_err := y_err self;
                      func := func self; parameters := parameters self;
                      sigma := sigma self; model := model self;
                      residual := Some v |};
     calls := [] |}.

(** [__init__(self, x, y, y_err, func, parameters)]: the base class
    initialiser runs first ([super_init] is its outcome), then the five
    attributes are bound. *)
Definition init (super_init : res unit) (x y y_err : pyobj) (func : pyfunc)
    (parameters : gmap string pyobj) : res CustomGaussianLikelihood :=
  _ ← super_init;
  Ok {| x := x; y := y; y_err := y_err; func := func;
        parameters := parameters;
        sigma := None; model := None; residual := None |}.

(** [log_likelihood(self)], statement by statement. *)
Definition log_likelihood : method pyobj :=
  (* self.sigma = np.sqrt((self.y_err**2) + (self.parameters["sigma"]**2)) *)
  ye ← attr y_err;
  ye2 ← call (py_pow ye 2);
  ps ← attr parameters;
  q ← call (getitem ps "sigma");
  q2 ← call (py_pow q 2);
  v ← call (py_add ye2 q2);
  s ← call (np_sqrt v);
  set_sigma s;;
  (* self.model = self.func(self.x, self.parameters["a"],
                            self.parameters["c"]) *)
  f ← attr func;
  xs ← attr x;
  ps ← attr parameters;
  a ← call (getitem ps "a");
  ps ← attr parameters;
  c ← call (getitem ps "c");
  m ← call (f xs a c);
  set_model m;;
  (* self.residual = (self.y - self.model)**2 *)
  ys ← attr y;
  m ← attr_opt "model" model;
  d ← call (py_sub ys m);
  r ← call (py_pow d 2);
  set_residual r;;
  (* ln_like = np.sum(- (self.residual / (2 * self.sigma**2))
                      - np.log(2 * np.pi * self.sigma**2) / 2) *)
  r ← attr_opt "residual" residual;
  s ← attr_opt "sigma" sigma;
  s2 ← call (py_pow s 2);
  t ← call (py_mul (Float 2) s2);
  u ← call (np_div r t);
  nu ← call (py_neg u);
  s ← attr_opt "sigma" sigma;
  s2 ← call (py_pow s 2);
  w ← call (py_mul (Float (2 * np_pi)) s2);
  l ← call (np_log w);
  h ← call (np_div l (Float 2));
  e ← call (py_sub nu h);
  ln_like ← call (np_sum e);
  (* return ln_like *)
  mret ln_like.

(** The closed-form Gaussian log-likelihood in the words of the
    specification: the sum over the data points [(x_i, y_i, yerr_i)] of
    [-(y_i - mu x_i)^2 / (2 s_i^2) - (1/2) ln (2 pi s_i^2)] with
    [s_i^2 = yerr_i^2 + sigma^2]. *)
Definition gaussian_ln_like (mu : R -> R) (sigma : R)
    (points : list (R * R * R)) : R :=
  foldr Rplus 0
    ((fun p : R * R * R =>
        let '(xi, yi, ei) := p in
        let s2 := ei ^ 2 + sigma ^ 2 in
        - ((yi - mu xi) ^ 2 / (2 * s2)) - (1 / 2) * ln (2 * PI * s2))
       <$> points).

(** The attributes bound by [__init__] agree in two receivers. *)
Definition same_inputs (s s' : CustomGaussianLikelihood) : Prop :=
  x s' = x s /\ y s' = y s /\ y_err s' = y_err s /\ func s' = func s /\
  parameters s' = parameters s.

(** A callee log in which the only exception, if any, is [e] raised by the
    last callee invoked. *)
Definition raised_last (e : exn) (log : list (option exn)) : Prop :=
  exists l, log = l ++ [Some e] /\ Forall (eq None) l.

(** A method body without handlers: whatever the receiver, it leaves the
    constructor-bound attributes alone; it returns exactly when every
    callee returned, and raises [e] exactly when the last callee it
    invoked raised [e]. *)
Record straight_line {A : Type} (m : method A) : Prop := {
  sl_frame : forall self, same_inputs self (self_after (m self));
  sl_returns : forall self a,
      returned (m self) = Ok a -> Forall (eq None) (calls (m self));
  sl_raises : forall self e,
      returned (m self) = Raise e -> raised_last e (calls (m self))
}.

(** The data points [(x_i, y_i, yerr_i)] of three arrays. *)
Definition points (xs ys es : list R) : list (R * R * R) :=
  zip (zip xs ys) es.

(** The three arrays [log_likelihood] stores and the number it returns,
    as the statements of the method compute them. *)
Definition sigma_of (sg : R) (pts : list (R * R * R)) : pyobj :=
  Array ((fun p => sqrt (p.2 ^ 2 + sg ^ 2)) <$> pts).

Definition model_of (mu : R -> R) (pts : list (R * R * R)) : pyobj :=
  Array ((fun p => mu p.1.1) <$> pts).

Definition residual_of (mu : R -> R) (pts : list (R * R * R)) : pyobj :=
  Array ((fun p => (p.1.2 - mu p.1.1) ^ 2) <$> pts).

Definition ln_like_of (mu : R -> R) (sg : R) (pts : list (R * R * R)) : R :=
  foldr Rplus 0
    ((fun p =>
        - ((p.1.2 - mu p.1.1) ^ 2 / (2 * sqrt (p.2 ^ 2 + sg ^ 2) ^ 2))
        - ln (2 * PI * sqrt (p.2 ^ 2 + sg ^ 2) ^ 2) / 2) <$> pts).

(** A receiver whose arrays are the columns of [pts], whose parameters
    bind ["a"], ["c"], ["sigma"] to numbers and whose [func] maps the
    array [x] to the entrywise image under [mu]. *)
Record well_formed (self : CustomGaussianLikelihood) (mu : R -> R)
    (a c sg : R) (pts : list (R * R * R)) : Prop := {
  wf_x : x self = Array ((fun p => p.1.1) <$> pts);
  wf_y : y self = Array ((fun p => p.1.2) <$> pts);
  wf_y_err : y_err self = Array ((fun p => p.2) <$> pts);
  wf_a : parameters self !! "a" = Some (Float a);
  wf_c : parameters self !! "c" = Some (Float c);
  wf_sigma : parameters self !! "sigma" = Some (Float sg);
  wf_func : func self (x self) (Float a) (Float c) = Ok (model_of mu pts)
}.

End Likelihood.

(** ** The library objects the cells build and receive *)

Module Bilby.
Import Py.

(** [bilby.prior.Uniform(minimum, maximum, name)]. *)
Record Uniform : Type := {
  minimum : R;
  maximum : R;
  name : string
}.

(** The keyword arguments of a [bilby.likelihood.GaussianLikelihood(x=,
    y=, func=, sigma=)] call; of the function passed as [func] the record
    keeps the argument names, which is what the library reads off it. *)
Record GaussianLikelihood : Type := {
  gl_x : pyobj;
  gl_y : pyobj;
  gl_func : list string;
  gl_sigma : pyobj
}.

(** The library infers the parameters of a [GaussianLikelihood] from the
    signature of [func]: every argument but the first (the independent
    variable) is a free parameter. *)
Definition inferred_parameters (signature : list string) : gset string :=
  list_to_set (tail signature).

(** A result object, as far as the notebook reads it: the scalar
    [log_evidence]. *)
Record Result : Type := {
  log_evidence : R
}.

End Bilby.

(** ** The cells of the three examples *)

Module Notebook.
Import Py Models FakeData Likelihood Bilby.

(** The argument names of the two [def]s, in source order. *)
Definition line_signature : list string := ["x"; "a"; "c"].
Definition quadratic_signature : list string := ["x"; "a"; "b"; "c"].

(** Code cell 15:
    [likelihood = bilby.likelihood.GaussianLikelihood(x=x, y=data,
    func=line, sigma=y_errs)]. *)
Definition example1_likelihood (noise y_errs : pyobj)
    : res GaussianLikelihood :=
  d ← data noise;
  Ok {| gl_x := FakeData.x; gl_y := d; gl_func := line_signature;
        gl_sigma := y_errs |}.

(** Code cell 17. *)
Definition example1_priors : gmap string Uniform :=
  <["c" := {| minimum := 0; maximum := 4; name := "c" |}]>
    (<["a" := {| minimum := 0; maximum := 1; name := "a" |}]> ∅).

(** Code cell 31: [parameters = dict(a=None, c=None, sigma=None)]. *)
Definition example2_parameters : gmap string pyobj :=
  <["sigma" := PyNone]> (<["c" := PyNone]> (<["a" := PyNone]> ∅)).

(** Code cell 31:
    [likelihood = CustomGaussianLikelihood(x=x, y=y, y_err=y_errs,
    func=line, parameters=parameters)]; the base-class initialiser
    returns. *)
Definition example2_likelihood (y_errs : pyobj)
    : res CustomGaussianLikelihood :=
  y0 ← FakeData.y;
  init (Ok tt) FakeData.x y0 y_errs line example2_parameters.

(** Code cell 31, the priors. *)
Definition example2_priors : gmap string Uniform :=
  <["sigma" := {| minimum := 0; maximum := 1; name := "sigma" |}]>
    (<["c" := {| minimum := 0; maximum := 4; name := "c" |}]>
       (<["a" := {| minimum := 0; maximum := 1; name := "a" |}]> ∅)).

(** Code cell 44:
    [likelihood = bilby.likelihood.GaussianLikelihood(x=x, y=data,
    func=quadratic, sigma=y_errs)]. *)
Definition example3_likelihood (noise y_errs : pyobj)
    : res GaussianLikelihood :=
  d ← data noise;
  Ok {| gl_x := FakeData.x; gl_y := d; gl_func := quadratic_signature;
        gl_sigma := y_errs |}.

(** Code cell 44, the priors. *)
Definition example3_priors : gmap string Uniform :=
  <["c" := {| minimum := -2; maximum := 2; name := "c" |}]>
    (<["b" := {| minimum := -2; maximum := 2; name := "b" |}]>
       (<["a" := {| minimum := -2; maximum := 2; name := "a" |}]> ∅)).

(** Code cell 54:
    [lnZ_line = result_line.log_evidence],
    [lnZ_quad = result_quad.log_evidence],
    [lnBF = lnZ_line - lnZ_quad]. *)
Definition lnBF (result_line result_quad : Result) : R :=
  let lnZ_line := log_evidence result_line in
  let lnZ_quad := log_evidence result_quad in
  lnZ_line - lnZ_quad.

(** Code cells 52 and 54 in sequence: [read_in_result] is the outcome of
    [bilby.result.read_in_result("./output/line_test_result.json")]. *)
Definition bayes_factor_cells (read_in_result : res Result)
    (result_quad : Result) : res R :=
  result_line ← read_in_result;
  Ok (lnBF result_line result_quad).

(** The parameters dictionary once the sampler has filled in a sample. *)
Definition sampled (a c sg : R) : gmap string pyobj :=
  <["sigma" := Float sg]> (<["c" := Float c]> (<["a" := Float a]>
    example2_parameters)).

(** A small receiver in the state the sampler leaves it in before a call:
    two data points and the sample [a = 0.5], [c = 1], [sigma = 0]. *)
Definition two_point_likelihood : CustomGaussianLikelihood :=
  {| Likelihood.x := Array [0; 1]; Likelihood.y := Array [1; 2];
     y_err := Array [1; 1]; func := line;
     parameters := sampled 0.5 1 0;
     sigma := None; model := None; residual := None |}.

End Notebook.

(** ** More of the cells: measurement errors, fitted receivers, plots *)

Module Fit.
Import Py Models Likelihood Notebook.

(** Code cell 12: [y_errs = 0.1 + 1.0 * np.random.rand(n)], for the array
    [rand] that [np.random.rand(n)] draws. *)
Definition y_errs (rand : pyobj) : res pyobj :=
  scaled ← py_mul (Float 1.0) rand;
  py_add (Float 0.1) scaled.

(** The receiver [CustomGaussianLikelihood(x, y, y_err, func=line,
    parameters)] of cell 31 as [__init__] leaves it, for data whose points
    are [pts] and parameters holding the sample [(a, c, sg)]. *)
Definition line_fit (pts : list (R * R * R)) (a c sg : R)
    : CustomGaussianLikelihood :=
  {| Likelihood.x := Array ((fun p => p.1.1) <$> pts);
     Likelihood.y := Array ((fun p => p.1.2) <$> pts);
     y_err := Array ((fun p => p.2) <$> pts);
     func := line;
     parameters := sampled a c sg;
     sigma := None; model := None; residual := None |}.

(** The same receiver with one number [err] given as [y_err] for all the
    points [(x_i, y_i)]. *)
Definition line_fit_scalar_err (pts : list (R * R)) (err a c sg : R)
    : CustomGaussianLikelihood :=
  {| Likelihood.x := Array (fst <$> pts);
     Likelihood.y := Array (snd <$> pts);
     y_err := Float err;
     func := line;
     parameters := sampled a c sg;
     sigma := None; model := None; residual := None |}.

(** The part of the Gaussian log-likelihood that does not depend on the
    residuals: the sum of the [-(1/2) ln (2 pi s_i^2)]. *)
Definition normalisation (sg : R) (pts : list (R * R * R)) : R :=
  foldr Rplus 0
    ((fun p => - (1 / 2) * ln (2 * PI * (p.2 ^ 2 + sg ^ 2))) <$> pts).

(** The weighted sum of squared residuals, [sum (y_i - mu x_i)^2 /
    (2 s_i^2)]. *)
Definition misfit (mu : R -> R) (sg : R) (pts : list (R * R * R)) : R :=
  foldr Rplus 0
    ((fun p => (p.1.2 - mu p.1.1) ^ 2 / (2 * (p.2 ^ 2 + sg ^ 2))) <$> pts).

End Fit.

Module Plots.
Import Py Models.

(** Code cells 25, 37 and 49: [xfit = np.linspace(-12, 12, 32)]. *)
Definition xfit : pyobj := np_linspace (-12) 12 32.

(** [a[i]] on a 1-D array for an index [i >= 0]: numpy raises
    [IndexError] when [i] is out of bounds. *)
Definition getindex (a : list R) (i : nat) : res pyobj :=
  match a !! i with
  | Some v => Ok (Float v)
  | None => Raise (LibraryError "IndexError")
  end.

(** A [for] loop over the indices [indices] that collects what each pass
    produces; an exception in a pass ends the loop. *)
Fixpoint for_each {A : Type} (body : nat -> res A) (indices : list nat)
    : res (list A) :=
  match indices with
  | [] => Ok []
  | i :: rest =>
      v ← body i;
      vs ← for_each body rest;
      Ok (v :: vs)
  end.

(** Code cells 25 and 37, the loop
    [for i in range(0, 25): instance = line(xfit, a_vals[i], c_vals[i])]
    followed by the plot of [instance]; the result lists the 25 instances
    plotted. *)
Definition posterior_draws (a_vals c_vals : list R) : res (list pyobj) :=
  for_each (fun i =>
              a ← getindex a_vals i;
              c ← getindex c_vals i;
              line xfit a c)
           (seq 0 25).

(** Code cell 49, the same loop for the quadratic model:
    [instance = quadratic(xfit, a_vals[i], b_vals[i], c_vals[i])]. *)
Definition posterior_draws_quad (a_vals b_vals c_vals : list R)
    : res (list pyobj) :=
  for_each (fun i =>
              a ← getindex a_vals i;
              b ← getindex b_vals i;
              c ← getindex c_vals i;
              quadratic xfit a b c)
           (seq 0 25).

End Plots.

(** ** The notebook as a script over the libraries it calls *)

Module Script.
Import Py Likelihood.

(** Running a piece of cell code gives the value it produces or the
    exception it raises, and the log of the callee invocations in
    evaluation order ([None]: the callee returned, [Some e]: it raised
    [e]). *)
Record run (A : Type) : Type := {
  value : res A;
  invoked : list (option exn)
}.
Arguments value {A} r.
Arguments invoked {A} r.

#[global] Instance run_ret : MRet run := fun A a =>
  {| value := Ok a; invoked := [] |}.

(** Sequencing: what follows runs only when the first part produced a
    value. *)
#[global] Instance run_bind : MBind run := fun A B k m =>
  match value m with
  | Ok a =>
      {| value := value (k a); invoked := invoked m ++ invoked (k a) |}
  | Raise e => {| value := Raise e; invoked := invoked m |}
  end.

(** Invoking a callee (a library function, a builtin, an operator, a
    function of the notebook) whose evaluation gives [r]. *)
Definition callee {A : Type} (r : res A) : run A :=
  {| value := r; invoked := [raised r] |}.

(** [for i in indices: body], an exception in a pass ending the loop. *)
Fixpoint for_in (body : nat -> run unit) (indices : list nat) : run unit :=
  match indices with
  | [] => mret tt
  | i :: rest => body i;; for_in body rest
  end.



(** Code that hands every exception on: it produces a value exactly when
    every callee it invoked returned, and raises [e] exactly when the last
    callee it invoked raised [e], every earlier one having returned. *)
Definition propagates {A : Type} (m : run A) : Prop :=
  match value m with
  | Ok _ => Forall (eq None) (invoked m)
  | Raise e => raised_last e (invoked m)
  end.

End Script.

Module Lib.
Import Py Likelihood Bilby.

(** An object of a library that the notebook only passes on: a
    likelihood, a data frame, a column, a summary. *)
Inductive handle : Type := Handle (id : nat).

(** An argument of a plotting call: positional or keyword, an array or
    number, or a string. *)
Inductive arg : Type :=
| Pos (v : pyobj)
| PosText (s : string)
| Kw (key : string) (v : pyobj)
| KwText (key value : string).

(** What is passed as [likelihood=] to the sampler: a library likelihood
    or an instance of the notebook's class. *)
Inductive likelihood : Type :=
| Builtin (h : handle)
| Custom (self : CustomGaussianLikelihood).

(** The library functions, builtins and IPython commands the cells call,
    each with the outcome of a call on given arguments. *)
Record Library : Type := {
  (** [import numpy as np], [import matplotlib.pyplot as plt],
      [import bilby] *)
  import_module : string -> res unit;
  (** [bilby?], [bilby.likelihood.GaussianLikelihood?],
      [bilby.run_sampler?] *)
  ipython_help : string -> res unit;
  np_random_seed : nat -> res unit;
  np_random_rand : nat -> res pyobj;
  np_random_uniform : R -> R -> nat -> res pyobj;
  np_median : pyobj -> res pyobj;
  (** [plt.errorbar], [plt.plot], [plt.xlabel], [plt.ylabel], [plt.xlim],
      [plt.legend], [plt.show] *)
  plt_call : string -> list arg -> res unit;
  (** [bilby.likelihood.GaussianLikelihood(x=, y=, func=, sigma=)] *)
  GaussianLikelihood_new : GaussianLikelihood -> res handle;
  (** [super().__init__()] of [bilby.likelihood.Likelihood] *)
  Likelihood_init : res unit;
  (** [bilby.prior.Uniform(minimum, maximum, name)] *)
  Uniform_new : R -> R -> string -> res Uniform;
  (** [bilby.run_sampler(likelihood=, priors=, sampler=, nlive=, label=,
      outdir=)] *)
  run_sampler :
    likelihood -> gmap string Uniform -> string -> nat -> string -> string ->
    res Result;
  (** [result.plot_corner(truths=, dpi=)] *)
  plot_corner : Result -> option (gmap string pyobj) -> nat -> res unit;
  (** [result.posterior], [frame[key]], [column.values] *)
  posterior : Result -> res handle;
  frame_getitem : handle -> string -> res handle;
  series_values : handle -> res (list R);
  (** [result.get_one_dimensional_median_and_error_bar(key)] and the
      attributes [median], [plus], [minus] of what it returns *)
  median_and_error_bar : Result -> string -> res handle;
  summary_attr : handle -> string -> res pyobj;
  (** the builtins [round], [str.format] and [print] *)
  builtin_round : pyobj -> nat -> res pyobj;
  str_format : string -> list pyobj -> res string;
  builtin_print : string -> res unit;
  (** [bilby.result.read_in_result(path)] *)
  read_in_result : string -> res Result
}.

End Lib.

Module Cells.
Import Py Models Likelihood Bilby Notebook Fit Plots Script Lib.

Section WithLibrary.
Variable lib : Library.

(** Cells 6 and 7: the three [import] statements. *)
Definition cell6 : run unit :=
  callee (import_module lib "numpy");;
  callee (import_module lib "matplotlib.pyplot").

Definition cell7 : run unit := callee (import_module lib "bilby").

(** Cells 8, 14 and 19: IPython help on a name. *)
Definition cell8 : run unit := callee (ipython_help lib "bilby").
Definition cell14 : run unit :=
  callee (ipython_help lib "bilby.likelihood.GaussianLikelihood").
Definition cell19 : run unit := callee (ipython_help lib "bilby.run_sampler").

(** Cells 10, 29 and 42 are the [def line], [class
    CustomGaussianLikelihood] and [def quadratic] statements: they bind a
    name and call nothing. *)
Definition cell10 : run unit := mret tt.
Definition cell29 : run unit := mret tt.
Definition cell42 : run unit := mret tt.

(** The plot that ends cells 25, 37 and 49:
    [plt.plot(xfit, med_model, ls="-", lw=2, color="k", label="Median fit")]
    [plt.plot(x, y, ls="--", lw=2, color="tab:green", label="Truth")]
    [plt.xlim(-11, 11)], [plt.xlabel("x")], [plt.ylabel("y")],
    [plt.legend(loc="best")], [plt.show()]. *)
Definition finish_plot (x y xfit med_model : pyobj) : run unit :=
  callee (plt_call lib "plot"
            [Pos xfit; Pos med_model; KwText "ls" "-"; Kw "lw" (Float 2);
             KwText "color" "k"; KwText "label" "Median fit"]);;
  callee (plt_call lib "plot"
            [Pos x; Pos y; KwText "ls" "--"; Kw "lw" (Float 2);
             KwText "color" "tab:green"; KwText "label" "Truth"]);;
  callee (plt_call lib "xlim" [Pos (Float (-11)); Pos (Float 11)]);;
  callee (plt_call lib "xlabel" [PosText "x"]);;
  callee (plt_call lib "ylabel" [PosText "y"]);;
  callee (plt_call lib "legend" [KwText "loc" "best"]);;
  callee (plt_call lib "show" []).

(** [plt.plot(xfit, instance, lw=1, color="tab:orange", alpha=0.3)] *)
Definition plot_instance (xfit instance : pyobj) : run unit :=
  callee (plt_call lib "plot"
            [Pos xfit; Pos instance; Kw "lw" (Float 1);
             KwText "color" "tab:orange"; Kw "alpha" (Float 0.3)]).

(** [values = result.posterior[key].values] *)
Definition posterior_values (result : Result) (key : string)
    : run (list R) :=
  frame ← callee (posterior lib result);
  column ← callee (frame_getitem lib frame key);
  callee (series_values lib column).

(** [print("key = {0} +{1}/-{2}".format(round(r.median,2),
    round(r.plus,2), round(r.minus,2)))] *)
Definition print_summary (key : string) (r : handle) : run unit :=
  median ← callee (summary_attr lib r "median");
  median ← callee (builtin_round lib median 2);
  plus ← callee (summary_attr lib r "plus");
  plus ← callee (builtin_round lib plus 2);
  minus ← callee (summary_attr lib r "minus");
  minus ← callee (builtin_round lib minus 2);
  text ← callee (str_format lib (key ++ " = {0} +{1}/-{2}")
                   [median; plus; minus]);
  callee (builtin_print lib text).

(** Cell 12, the fake data: it leaves [x], [y], [y_errs], [data]. *)
Definition cell12 : run (pyobj * pyobj * pyobj * pyobj) :=
  (* np.random.seed(123) *)
  callee (np_random_seed lib 123);;
  (* n = 10; x = np.linspace(-10, 10, n) *)
  x ← callee (Ok FakeData.x);
  (* y = line(x, 0.5, 1) *)
  y ← callee (line x (Float 0.5) (Float 1));
  (* y_errs = 0.1 + 1.0 * np.random.rand(n) *)
  draws ← callee (np_random_rand lib FakeData.n);
  scaled ← callee (py_mul (Float 1.0) draws);
  y_errs ← callee (py_add (Float 0.1) scaled);
  (* noise = np.random.uniform(-1.5, 1.5, n) *)
  noise ← callee (np_random_uniform lib (-1.5) 1.5 FakeData.n);
  (* data = y + noise *)
  data ← callee (py_add y noise);
  (* plt.errorbar(x, data, yerr=y_errs, fmt="o"); plt.plot(x, y, "--")
     plt.xlabel("x"); plt.ylabel("y"); plt.show() *)
  callee (plt_call lib "errorbar"
            [Pos x; Pos data; Kw "yerr" y_errs; KwText "fmt" "o"]);;
  callee (plt_call lib "plot" [Pos x; Pos y; PosText "--"]);;
  callee (plt_call lib "xlabel" [PosText "x"]);;
  callee (plt_call lib "ylabel" [PosText "y"]);;
  callee (plt_call lib "show" []);;
  mret (x, y, y_errs, data).

(** Cell 15. *)
Definition cell15 (x data y_errs : pyobj) : run likelihood :=
  h ← callee (GaussianLikelihood_new lib
                {| gl_x := x; gl_y := data; gl_func := line_signature;
                   gl_sigma := y_errs |});
  mret (Builtin h).

(** Cell 17: [priors = dict()], then one [bilby.prior.Uniform] per key. *)
Definition cell17 : run (gmap string Uniform) :=
  let priors : gmap string Uniform := ∅ in
  pa ← callee (Uniform_new lib 0 1 "a");
  let priors := <["a" := pa]> priors in
  pc ← callee (Uniform_new lib 0 4 "c");
  let priors := <["c" := pc]> priors in
  mret priors.

(** Cells 20, 32 and 45: [bilby.run_sampler(likelihood=likelihood,
    priors=priors, sampler="dynesty", nlive=512, label=label,
    outdir="output")]. *)
Definition sample (l : likelihood) (priors : gmap string Uniform)
    (label : string) : run Result :=
  callee (run_sampler lib l priors "dynesty" 512 label "output").

Definition cell20 l priors : run Result := sample l priors "line_test".
Definition cell32 l priors : run Result := sample l priors "custom_priors".
Definition cell45 l priors : run Result := sample l priors "quadratic_test".

(** Cell 22: [truths = dict(a=0.5, c=1.0)];
    [result.plot_corner(truths=truths, dpi=150)]. *)
Definition cell22 (result : Result) : run unit :=
  let truths : gmap string pyobj :=
    <["c" := Float 1.0]> (<["a" := Float 0.5]> ∅) in
  callee (plot_corner lib result (Some truths) 150).

(** Cell 24. *)
Definition cell24 (result : Result) : run (list R * list R) :=
  a_vals ← posterior_values result "a";
  c_vals ← posterior_values result "c";
  mret (a_vals, c_vals).

(** Cell 25: the median fit, the data and 25 posterior draws. *)
Definition cell25 (x y y_errs data : pyobj) (a_vals c_vals : list R)
    : run unit :=
  (* xfit = np.linspace(-12, 12, 32) *)
  xfit ← callee (Ok Plots.xfit);
  (* med_model = line(xfit, np.median(a_vals), np.median(c_vals)) *)
  ma ← callee (np_median lib (Array a_vals));
  mc ← callee (np_median lib (Array c_vals));
  med_model ← callee (line xfit ma mc);
  (* plt.errorbar(x, data, yerr=y_errs, fmt="o") *)
  callee (plt_call lib "errorbar"
            [Pos x; Pos data; Kw "yerr" y_errs; KwText "fmt" "o"]);;
  (* for i in range(0, 25): ... *)
  for_in (fun i =>
            a ← callee (getindex a_vals i);
            c ← callee (getindex c_vals i);
            instance ← callee (line xfit a c);
            plot_instance xfit instance)
         (seq 0 25);;
  finish_plot x y xfit med_model.

(** Cells 27, 38 and 50: the medians and credible intervals. *)
Definition cell27 (result : Result) : run unit :=
  a_result ← callee (median_and_error_bar lib result "a");
  c_result ← callee (median_and_error_bar lib result "c");
  callee (builtin_print lib "Median and 68% C.I.");;
  print_summary "a" a_result;;
  print_summary "c" c_result.

(** Cell 31: the parameters dictionary, the custom likelihood, the
    priors. *)
Definition cell31 (x y y_errs : pyobj)
    : run (likelihood * gmap string Uniform) :=
  let parameters := example2_parameters in
  self ← callee (init (Likelihood_init lib) x y y_errs line parameters);
  let priors : gmap string Uniform := ∅ in
  pa ← callee (Uniform_new lib 0 1 "a");
  let priors := <["a" := pa]> priors in
  pc ← callee (Uniform_new lib 0 4 "c");
  let priors := <["c" := pc]> priors in
  ps ← callee (Uniform_new lib 0 1 "sigma");
  let priors := <["sigma" := ps]> priors in
  mret (Custom self, priors).

(** Cell 34: [truths = dict(a=0.5, c=1.0, sigma=None)];
    [result.plot_corner(truths=truths, dpi=150)]. *)
Definition cell34 (result : Result) : run unit :=
  let truths : gmap string pyobj :=
    <["sigma" := PyNone]> (<["c" := Float 1.0]> (<["a" := Float 0.5]> ∅)) in
  callee (plot_corner lib result (Some truths) 150).

(** Cell 36. *)
Definition cell36 (result : Result) : run (list R * list R * list R) :=
  a_vals ← posterior_values result "a";
  c_vals ← posterior_values result "c";
  sigmas ← posterior_values result "sigma";
  mret (a_vals, c_vals, sigmas).

(** Cell 37: as cell 25, the error bars inflated by the median of the
    squared [sigma] samples. *)
Definition cell37 (x y y_errs data : pyobj) (a_vals c_vals sigmas : list R)
    : run unit :=
  xfit ← callee (Ok Plots.xfit);
  ma ← callee (np_median lib (Array a_vals));
  mc ← callee (np_median lib (Array c_vals));
  med_model ← callee (line xfit ma mc);
  (* plt.errorbar(x, data,
       yerr=np.sqrt(y_errs**2 + np.median(sigmas**2)), fmt="o") *)
  e2 ← callee (py_pow y_errs 2);
  s2 ← callee (py_pow (Array sigmas) 2);
  ms ← callee (np_median lib s2);
  v ← callee (py_add e2 ms);
  yerr ← callee (np_sqrt v);
  callee (plt_call lib "errorbar"
            [Pos x; Pos data; Kw "yerr" yerr; KwText "fmt" "o"]);;
  for_in (fun i =>
            a ← callee (getindex a_vals i);
            c ← callee (getindex c_vals i);
            instance ← callee (line xfit a c);
            plot_instance xfit instance)
         (seq 0 25);;
  finish_plot x y xfit med_model.

Definition cell38 (result : Result) : run unit :=
  a_result ← callee (median_and_error_bar lib result "a");
  c_result ← callee (median_and_error_bar lib result "c");
  sigma_result ← callee (median_and_error_bar lib result "sigma");
  callee (builtin_print lib "Median and 68% C.I.");;
  print_summary "a" a_result;;
  print_summary "c" c_result;;
  print_summary "sigma" sigma_result.

(** Cell 44: the Gaussian likelihood on [quadratic] and its priors. *)
Definition cell44 (x data y_errs : pyobj)
    : run (likelihood * gmap string Uniform) :=
  h ← callee (GaussianLikelihood_new lib
                {| gl_x := x; gl_y := data; gl_func := quadratic_signature;
                   gl_sigma := y_errs |});
  let priors : gmap string Uniform := ∅ in
  pa ← callee (Uniform_new lib (-2) 2 "a");
  let priors := <["a" := pa]> priors in
  pb ← callee (Uniform_new lib (-2) 2 "b");
  let priors := <["b" := pb]> priors in
  pc ← callee (Uniform_new lib (-2) 2 "c");
  let priors := <["c" := pc]> priors in
  mret (Builtin h, priors).

(** Cell 46: [result_quad.plot_corner(dpi=150)]. *)
Definition cell46 (result_quad : Result) : run unit :=
  callee (plot_corner lib result_quad None 150).

(** Cell 48. *)
Definition cell48 (result_quad : Result)
    : run (list R * list R * list R) :=
  a_vals ← posterior_values result_quad "a";
  b_vals ← posterior_values result_quad "b";
  c_vals ← posterior_values result_quad "c";
  mret (a_vals, b_vals, c_vals).

(** Cell 49: as cell 25 for the quadratic model. *)
Definition cell49 (x y y_errs data : pyobj) (a_vals b_vals c_vals : list R)
    : run unit :=
  xfit ← callee (Ok Plots.xfit);
  (* med_model = quadratic(xfit, np.median(a_vals), np.median(b_vals),
                           np.median(c_vals)) *)
  ma ← callee (np_median lib (Array a_vals));
  mb ← callee (np_median lib (Array b_vals));
  mc ← callee (np_median lib (Array c_vals));
  med_model ← callee (quadratic xfit ma mb mc);
  callee (plt_call lib "errorbar"
            [Pos x; Pos data; Kw "yerr" y_errs; KwText "fmt" "o"]);;
  for_in (fun i =>
            a ← callee (getindex a_vals i);
            b ← callee (getindex b_vals i);
            c ← callee (getindex c_vals i);
            instance ← callee (quadratic xfit a b c);
            plot_instance xfit instance)
         (seq 0 25);;
  finish_plot x y xfit med_model.

Definition cell50 (result_quad : Result) : run unit :=
  a_result ← callee (median_and_error_bar lib result_quad "a");
  b_result ← callee (median_and_error_bar lib result_quad "b");
  c_result ← callee (median_and_error_bar lib result_quad "c");
  callee (builtin_print lib "Median and 68% C.I.");;
  print_summary "a" a_result;;
  print_summary "b" b_result;;
  print_summary "c" c_result.

(** Cell 52. *)
Definition cell52 : run Result :=
  callee (Lib.read_in_result lib "./output/line_test_result.json").

(** Cell 54: the log Bayes factor and
    [print("log Bayes factor = {0}".format(lnBF))]. *)
Definition cell54 (result_line result_quad : Result) : run R :=
  let lnBF := lnBF result_line result_quad in
  text ← callee (str_format lib "log Bayes factor = {0}" [Float lnBF]);
  callee (builtin_print lib text);;
  mret lnBF.

(** The code cells run in order from the top, each reading the names the
    earlier ones bound. *)
Definition notebook : run R :=
  cell6;; cell7;; cell8;; cell10;;
  '(x, y, y_errs, data) ← cell12;
  cell14;;
  likelihood ← cell15 x data y_errs;
  priors ← cell17;
  cell19;;
  result ← cell20 likelihood priors;
  cell22 result;;
  '(a_vals, c_vals) ← cell24 result;
  cell25 x y y_errs data a_vals c_vals;;
  cell27 result;;
  cell29;;
  '(likelihood, priors) ← cell31 x y y_errs;
  result ← cell32 likelihood priors;
  cell34 result;;
  '(a_vals, c_vals, sigmas) ← cell36 result;
  cell37 x y y_errs data a_vals c_vals sigmas;;
  cell38 result;;
  cell42;;
  '(likelihood, priors) ← cell44 x data y_errs;
  result_quad ← cell45 likelihood priors;
  cell46 result_quad;;
  '(a_vals, b_vals, c_vals) ← cell48 result_quad;
  cell49 x y y_errs data a_vals b_vals c_vals;;
  cell50 result_quad;;
  result_line ← cell52;
  cell54 result_line result_quad.

End WithLibrary.

(** A library in which every call returns, the sampler apart, whose
    outcome is [sampler_outcome]. *)
Definition quiet_library (sampler_outcome : res Result) : Library :=
  {| import_module := fun _ => Ok tt;
     ipython_help := fun _ => Ok tt;
     np_random_seed := fun _ => Ok tt;
     np_random_rand := fun n => Ok (Array (replicate n 0.5));
     np_random_uniform := fun _ _ n => Ok (Array (replicate n 0));
     np_median := fun _ => Ok (Float 0);
     plt_call := fun _ _ => Ok tt;
     GaussianLikelihood_new := fun _ => Ok (Handle 0);
     Likelihood_init := Ok tt;
     Uniform_new := fun low high key =>
       Ok {| minimum := low; maximum := high; name := key |};
     run_sampler := fun _ _ _ _ _ _ => sampler_outcome;
     plot_corner := fun _ _ _ => Ok tt;
     posterior := fun _ => Ok (Handle 1);
     frame_getitem := fun _ _ => Ok (Handle 2);
     series_values := fun _ => Ok (replicate 25 0);
     median_and_error_bar := fun _ _ => Ok (Handle 3);
     summary_attr := fun _ _ => Ok (Float 0);
     builtin_round := fun v _ => Ok v;
     str_format := fun text _ => Ok text;
     builtin_print := fun _ => Ok tt;
     Lib.read_in_result := fun _ => Ok {| log_evidence := 0 |} |}.

End Cells.

(** * Theorems *)

(** Entrywise comparison of two explicit arrays. *)
Ltac array_eq :=
  repeat match goal with
         | |- _ :: _ = _ :: _ => apply (f_equal2 cons)
         | |- [] = [] => reflexivity
         end.

Section Operators.
Import Py.

Lemma broadcast2_same (f : R -> R -> R) (xs ys : list R) :
  length xs = length ys -> broadcast2 f xs ys = Ok (zip_with f xs ys).
Proof.
  intros Hlen. unfold broadcast2. rewrite decide_True by exact Hlen.
  reflexivity.
Qed.

(** Combining two entrywise images of one array. *)
Lemma zip_with_fmap_same {T : Type} (f : R -> R -> R) (g h : T -> R)
    (xs : list T) :
  zip_with f (g <$> xs) (h <$> xs) = (fun xi => f (g xi) (h xi)) <$> xs.
Proof.
  induction xs as [ | xi xs IH ]; [ reflexivity | ].
  cbn. f_equal. exact IH.
Qed.

Lemma binop_arrays_same {T : Type} (f : R -> R -> R) (g h : T -> R)
    (xs : list T) :
  binop f (Array (g <$> xs)) (Array (h <$> xs))
  = Ok (Array ((fun xi => f (g xi) (h xi)) <$> xs)).
Proof.
  unfold binop. rewrite broadcast2_same by (rewrite !length_fmap; reflexivity).
  rewrite zip_with_fmap_same. reflexivity.
Qed.

Lemma binop_float_array (f : R -> R -> R) (a : R) (ys : list R) :
  binop f (Float a) (Array ys) = Ok (Array (f a <$> ys)).
Proof. reflexivity. Qed.

Lemma binop_array_float (f : R -> R -> R) (xs : list R) (b : R) :
  binop f (Array xs) (Float b) = Ok (Array ((fun x => f x b) <$> xs)).
Proof. reflexivity. Qed.

Lemma bind_Ok {A B : Type} (a : A) (k : A -> res B) : Ok a ≫= k = k a.
Proof. reflexivity. Qed.

End Operators.

(** ** Stepping through a method body *)

Section MethodSteps.
Import Py Likelihood.
Context {A B : Type}.
Implicit Types (k : A -> method B) (self : CustomGaussianLikelihood).

Lemma log_before_nil (o : outcome B) : log_before [] o = o.
Proof. destruct o. reflexivity. Qed.

Lemma log_before_app (l1 l2 : list (option exn)) (o : outcome B) :
  log_before l1 (log_before l2 o) = log_before (l1 ++ l2) o.
Proof. unfold log_before. cbn. rewrite app_assoc. reflexivity. Qed.

Lemma bind_attr (get : CustomGaussianLikelihood -> A) k self :
  (attr get ≫= k) self = k (get self) self.
Proof. apply log_before_nil. Qed.

Lemma bind_call (r : res A) k self :
  (call r ≫= k) self
  = match r with
    | Ok a => log_before [None] (k a self)
    | Raise e =>
        {| returned := Raise e; self_after := self; calls := [Some e] |}
    end.
Proof. destruct r; reflexivity. Qed.

Lemma bind_attr_opt (name : string)
    (get : CustomGaussianLikelihood -> option pyobj)
    (k : pyobj -> method B) self :
  (attr_opt name get ≫= k) self
  = match get self with
    | Some v => log_before [None] (k v self)
    | None =>
        {| returned := Raise (AttributeError name); self_after := self;
           calls := [Some (AttributeError name)] |}
    end.
Proof.
  unfold attr_opt, mbind, method_bind, call. destruct (get self); reflexivity.
Qed.

Lemma bind_set (set : method unit) (k : unit -> method B) self self' :
  set self = {| returned := Ok tt; self_after := self'; calls := [] |} ->
  (set ≫= k) self = k tt self'.
Proof.
  intros Hset. unfold mbind, method_bind. rewrite Hset. apply log_before_nil.
Qed.

End MethodSteps.

Section ModelFunctions.
Import Py Models FakeData.

(** On numbers, [line] has no error case. *)
Lemma line_float (x a c : R) :
  line (Float x) (Float a) (Float c) = Ok (Float (a * x + c)).
Proof. reflexivity. Qed.

(** On an array [x] and numeric coefficients, [line] acts entrywise. *)
Lemma line_array (xs : list R) (a c : R) :
  line (Array xs) (Float a) (Float c)
  = Ok (Array ((fun xi => a * xi + c) <$> xs)).
Proof.
  unfold line, py_mul, py_add. cbn.
  rewrite <- list_fmap_compose. reflexivity.
Qed.

Lemma x_points :
  x = Array [-10; -70/9; -50/9; -10/3; -10/9; 10/9; 10/3; 50/9; 70/9; 10].
Proof.
  unfold x, np_linspace, n. cbn [seq fmap list_fmap Nat.sub]. f_equal.
  array_eq; simpl INR; lra.
Qed.

(** The array [y] of the fake-data cell is [line] entrywise on [x]. *)
Lemma y_entrywise :
  exists xs : list R,
    x = Array xs /\ length xs = n /\
    y = Ok (Array ((fun xi => 0.5 * xi + 1) <$> xs)).
Proof.
  eexists. split; [ exact x_points | ].
  split; [ reflexivity | ].
  unfold y. rewrite x_points. apply line_array.
Qed.

(** C1. [line] is a pure mapping returning [a*x + c]: on numbers
    [x], [a], [c] it returns the number [a*x + c], on an array [x] the
    array of the [a*x_i + c], and it raises nothing there.  Evaluated with
    [a = 0.5], [c = 1] on the ten points of [linspace(-10, 10, 10)] it
    returns [0.5*x_i + 1] at each point: the values [-4, -26/9, ..., 6]
    at [x = -10, -70/9, ..., 10]. *)
Theorem line_spec :
  (forall x a c : R,
      line (Float x) (Float a) (Float c) = Ok (Float (a * x + c))) /\
  (forall (xs : list R) (a c : R),
      line (Array xs) (Float a) (Float c)
      = Ok (Array ((fun xi => a * xi + c) <$> xs))) /\
  (exists xs : list R,
      x = Array xs /\ length xs = n /\
      y = Ok (Array ((fun xi => 0.5 * xi + 1) <$> xs))) /\
  x = Array [-10; -70/9; -50/9; -10/3; -10/9; 10/9; 10/3; 50/9; 70/9; 10] /\
  y = Ok (Array [-4; -26/9; -16/9; -2/3; 4/9; 14/9; 8/3; 34/9; 44/9; 6]).
Proof.
  split; [ exact line_float | ].
  split; [ exact line_array | ].
  split.
  - exact y_entrywise.
  - split; [ exact x_points | ].
    unfold y. rewrite x_points, line_array. do 2 f_equal.
    cbn [fmap list_fmap]. array_eq; lra.
Qed.

(** C2. [quadratic] is a pure mapping returning [a*x^2 + b*x + c]: the
    number on numbers, the entrywise array on an array [x]. *)
Theorem quadratic_spec :
  (forall x a b c : R,
      quadratic (Float x) (Float a) (Float b) (Float c)
      = Ok (Float (a * x ^ 2 + b * x + c))) /\
  (forall (xs : list R) (a b c : R),
      quadratic (Array xs) (Float a) (Float b) (Float c)
      = Ok (Array ((fun xi => a * xi ^ 2 + b * xi + c) <$> xs))).
Proof.
  split; [ reflexivity | ].
  intros xs a b c. unfold quadratic, py_pow, py_mul, py_add.
  cbn [unop]. rewrite bind_Ok, !binop_float_array, !bind_Ok.
  rewrite <- list_fmap_compose, binop_arrays_same, bind_Ok.
  rewrite binop_array_float, <- list_fmap_compose. reflexivity.
Qed.

(** C9. The linear model is nested in the quadratic one:
    [quadratic(x, 0, b, c) = line(x, b, c)] for every number or array [x]
    and all numbers [b], [c]. *)
Theorem quadratic_nests_line :
  (forall x b c : R,
      quadratic (Float x) (Float 0) (Float b) (Float c)
      = line (Float x) (Float b) (Float c)) /\
  (forall (xs : list R) (b c : R),
      quadratic (Array xs) (Float 0) (Float b) (Float c)
      = line (Array xs) (Float b) (Float c)).
Proof.
  split.
  - intros x0 b c. rewrite line_float. cbn. do 2 f_equal. ring.
  - intros xs b c. rewrite line_array.
    destruct quadratic_spec as [_ ->]. do 2 f_equal.
    apply list_fmap_ext. intros _ xi _. ring.
Qed.

End ModelFunctions.

(** ** [log_likelihood] on a well-formed receiver *)

Section LogLikelihood.
Import Py Likelihood.

Lemma points_x (xs ys es : list R) :
  length ys = length xs -> length es = length xs ->
  (fun p : R * R * R => p.1.1) <$> points xs ys es = xs.
Proof.
  intros Hy He. unfold points.
  transitivity (fst <$> (fst <$> zip (zip xs ys) es)).
  { apply (list_fmap_compose fst fst). }
  rewrite fst_zip by (rewrite length_zip_with; lia).
  apply fst_zip. lia.
Qed.

Lemma points_y (xs ys es : list R) :
  length ys = length xs -> length es = length xs ->
  (fun p : R * R * R => p.1.2) <$> points xs ys es = ys.
Proof.
  intros Hy He. unfold points.
  transitivity (snd <$> (fst <$> zip (zip xs ys) es)).
  { apply (list_fmap_compose fst snd). }
  rewrite fst_zip by (rewrite length_zip_with; lia).
  apply snd_zip. lia.
Qed.

Lemma points_err (xs ys es : list R) :
  length ys = length xs -> length es = length xs ->
  (fun p : R * R * R => p.2) <$> points xs ys es = es.
Proof.
  intros Hy He. unfold points. apply snd_zip.
  rewrite length_zip_with. lia.
Qed.

(** The complete outcome of one call on a well-formed receiver: all 24
    callee invocations return, three attributes are assigned, the sum is
    returned. *)
Lemma log_likelihood_run self mu a c sg pts :
  well_formed self mu a c sg pts ->
  log_likelihood self
  = {| returned := Ok (Float (ln_like_of mu sg pts));
       self_after :=
         {| x := x self; y := y self; y_err := y_err self;
            func := func self; parameters := parameters self;
            sigma := Some (sigma_of sg pts);
            model := Some (model_of mu pts);
            residual := Some (residual_of mu pts) |};
       calls := replicate 24 None |}.
Proof.
  intros [Hx Hy He Ha Hc Hs Hf].
  destruct self as [sx sy se sf sp s0 m0 r0]. cbn in Hx, Hy, He, Ha, Hc, Hs, Hf.
  subst sx sy se. unfold model_of in Hf.
  unfold log_likelihood, getitem, py_pow, py_add, py_sub, py_mul, py_neg,
    np_div, np_sqrt, np_log, np_sum.
  repeat first
    [ rewrite bind_attr
    | rewrite bind_call
    | rewrite bind_attr_opt
    | erewrite bind_set by reflexivity
    | rewrite Ha | rewrite Hc | rewrite Hs | rewrite Hf
    | rewrite binop_arrays_same
    | rewrite binop_array_float
    | rewrite binop_float_array
    | rewrite <- list_fmap_compose
    | rewrite log_before_app
    | progress cbn [x y y_err func parameters sigma model residual unop app] ].
  reflexivity.
Qed.

End LogLikelihood.

Section ClosedForm.
Import Py Models Likelihood.

(** Squaring the stored [sigma] gives back the variance
    [yerr_i^2 + sigma^2], which turns the computed sum into the closed
    form. *)
Lemma ln_like_closed_form (mu : R -> R) (sg : R) (pts : list (R * R * R)) :
  ln_like_of mu sg pts = gaussian_ln_like mu sg pts.
Proof.
  unfold ln_like_of, gaussian_ln_like. f_equal.
  apply list_fmap_ext. intros _ [[xi yi] ei] _. cbn [fst snd].
  assert (Hvar : sqrt (ei ^ 2 + sg ^ 2) ^ 2 = ei ^ 2 + sg ^ 2).
  { apply pow2_sqrt. pose proof (pow2_ge_0 ei). pose proof (pow2_ge_0 sg). lra. }
  rewrite Hvar. lra.
Qed.

Lemma well_formed_points self mu a c sg xs ys es :
  x self = Array xs -> y self = Array ys -> y_err self = Array es ->
  length ys = length xs -> length es = length xs ->
  parameters self !! "a" = Some (Float a) ->
  parameters self !! "c" = Some (Float c) ->
  parameters self !! "sigma" = Some (Float sg) ->
  func self (Array xs) (Float a) (Float c) = Ok (Array (mu <$> xs)) ->
  well_formed self mu a c sg (points xs ys es).
Proof.
  intros Hx Hy He Ly Le Ha Hc Hs Hf.
  split; try assumption.
  - rewrite points_x by assumption. exact Hx.
  - rewrite points_y by assumption. exact Hy.
  - rewrite points_err by assumption. exact He.
  - rewrite Hx, Hf. unfold model_of. f_equal. f_equal.
    rewrite <- (points_x xs ys es Ly Le) at 1.
    rewrite <- list_fmap_compose. reflexivity.
Qed.

(** C3. The class body defines, besides its constructor, the single method
    [log_likelihood]; for every parameters dictionary binding ["a"],
    ["c"], ["sigma"] to numbers [a], [c], [sg], data arrays [x], [y],
    [y_err] of one length and a model function [func] acting entrywise
    ([mu x_i] being [func(x_i, a, c)]), the method returns the closed-form
    Gaussian log-likelihood: the sum over the data points of
    [-(y_i - mu x_i)^2 / (2 s_i^2) - (1/2) ln (2 pi s_i^2)] with
    [s_i^2 = yerr_i^2 + sg^2]. *)
Theorem log_likelihood_closed_form :
  forall (self : CustomGaussianLikelihood) (mu : R -> R) (a c sg : R)
         (xs ys es : list R),
    x self = Array xs -> y self = Array ys -> y_err self = Array es ->
    length ys = length xs -> length es = length xs ->
    parameters self !! "a" = Some (Float a) ->
    parameters self !! "c" = Some (Float c) ->
    parameters self !! "sigma" = Some (Float sg) ->
    (forall xi : R, func self (Float xi) (Float a) (Float c)
                    = Ok (Float (mu xi))) ->
    func self (Array xs) (Float a) (Float c) = Ok (Array (mu <$> xs)) ->
    filter (fun name => name <> "__init__") defined_methods
    = ["log_likelihood"] /\
    returned (log_likelihood self)
    = Ok (Float (gaussian_ln_like mu sg (points xs ys es))).
Proof.
  intros self mu a c sg xs ys es Hx Hy He Ly Le Ha Hc Hs _ Hf.
  split; [ reflexivity | ].
  rewrite (log_likelihood_run self mu a c sg (points xs ys es))
    by (apply well_formed_points; assumption).
  cbn [returned]. rewrite ln_like_closed_form. reflexivity.
Qed.

End ClosedForm.

Section ClosedFormWitness.
Import Py Models Likelihood Notebook.

Lemma log_likelihood_closed_form_witness :
  filter (fun name => name <> "__init__") defined_methods
  = ["log_likelihood"] /\
  returned (log_likelihood two_point_likelihood)
  = Ok (Float (gaussian_ln_like (fun xi => 0.5 * xi + 1) 0
                 (points [0; 1] [1; 2] [1; 1]))).
Proof.
  apply (log_likelihood_closed_form two_point_likelihood
           (fun xi => 0.5 * xi + 1) 0.5 1 0 [0; 1] [1; 2] [1; 1]);
    reflexivity.
Defined.

End ClosedFormWitness.

(** ** Method bodies without handlers *)

Section StraightLine.
Import Py Likelihood.

Lemma same_inputs_refl self : same_inputs self self.
Proof. repeat split. Qed.

Lemma same_inputs_trans s1 s2 s3 :
  same_inputs s1 s2 -> same_inputs s2 s3 -> same_inputs s1 s3.
Proof.
  intros (Hx & Hy & He & Hf & Hp) (Hx' & Hy' & He' & Hf' & Hp').
  repeat split; congruence.
Qed.

Lemma straight_line_ret {A : Type} (a : A) : straight_line (mret a).
Proof.
  split; cbn.
  - intros self. apply same_inputs_refl.
  - intros self b _. constructor.
  - intros self e Hr. discriminate Hr.
Qed.

Lemma straight_line_call {A : Type} (r : res A) : straight_line (call r).
Proof.
  split; cbn.
  - intros self. apply same_inputs_refl.
  - intros self a ->. repeat constructor.
  - intros self e ->. exists []. split; [ reflexivity | constructor ].
Qed.

Lemma straight_line_attr {A : Type} (get : CustomGaussianLikelihood -> A) :
  straight_line (attr get).
Proof.
  split; cbn.
  - intros self. apply same_inputs_refl.
  - intros self a _. constructor.
  - intros self e Hr. discriminate Hr.
Qed.

Lemma straight_line_attr_opt name get : straight_line (attr_opt name get).
Proof.
  split; intros self; unfold attr_opt; apply straight_line_call.
Qed.

Lemma straight_line_set_sigma v : straight_line (set_sigma v).
Proof.
  split; cbn.
  - intros self. repeat split.
  - intros self a _. constructor.
  - intros self e Hr. discriminate Hr.
Qed.

Lemma straight_line_set_model v : straight_line (set_model v).
Proof.
  split; cbn.
  - intros self. repeat split.
  - intros self a _. constructor.
  - intros self e Hr. discriminate Hr.
Qed.

Lemma straight_line_set_residual v : straight_line (set_residual v).
Proof.
  split; cbn.
  - intros self. repeat split.
  - intros self a _. constructor.
  - intros self e Hr. discriminate Hr.
Qed.

(** Sequencing keeps the property: the exception of the first part, or of
    the continuation, is passed on as it is. *)
Lemma straight_line_bind {A B : Type} (m : method A) (k : A -> method B) :
  straight_line m -> (forall a, straight_line (k a)) ->
  straight_line (m ≫= k).
Proof.
  intros [Fm Rm Em] Hk. split; intros self; unfold mbind, method_bind; cbn zeta;
    specialize (Fm self); specialize (Rm self); specialize (Em self);
    destruct (returned (m self)) as [a | e0]; cbn.
  - eapply same_inputs_trans; [ exact Fm | apply (Hk a) ].
  - exact Fm.
  - intros b Hb. apply Forall_app. split.
    + apply (Rm a). reflexivity.
    + apply (sl_returns _ (Hk a) _ b). exact Hb.
  - intros b Hb. discriminate Hb.
  - intros e He.
    destruct (sl_raises _ (Hk a) _ e He) as (l & Hl & Hnone).
    exists (calls (m self) ++ l). split.
    + rewrite Hl. apply app_assoc.
    + apply Forall_app. split; [ apply (Rm a); reflexivity | exact Hnone ].
  - intros e He. injection He as <-. apply Em. reflexivity.
Qed.

Lemma log_likelihood_straight_line : straight_line log_likelihood.
Proof.
  unfold log_likelihood.
  repeat first
    [ apply straight_line_bind; [ | intros ? ]
    | apply straight_line_call
    | apply straight_line_attr
    | apply straight_line_attr_opt
    | apply straight_line_set_sigma
    | apply straight_line_set_model
    | apply straight_line_set_residual
    | apply straight_line_ret ].
Qed.

End StraightLine.

Section Effects.
Import Py Models Likelihood Notebook.

Lemma well_formed_same_inputs self self' mu a c sg pts :
  well_formed self mu a c sg pts -> same_inputs self self' ->
  well_formed self' mu a c sg pts.
Proof.
  intros [Hx Hy He Ha Hc Hs Hf] (Ex & Ey & Ee & Ef & Ep).
  split; rewrite ?Ex, ?Ey, ?Ee, ?Ef, ?Ep; assumption.
Qed.

(** Running the body symbolically: every callee invocation is split into
    its two outcomes. *)
Ltac run_body :=
  repeat first
    [ rewrite bind_attr
    | erewrite bind_set by reflexivity
    | rewrite bind_attr_opt
    | rewrite bind_call
    | rewrite log_before_app
    | progress cbn [x y y_err func parameters sigma model residual app]
    | match goal with
      | |- context [match ?r with Ok _ => _ | Raise _ => _ end] =>
          destruct r eqn:?
      end ].

(** What [sigma], [model] and [residual] hold before a call has no
    influence on what the call returns or on which callees it invokes;
    and when the call returns, all three have been assigned, to values
    that do not depend on the old ones either. *)
Lemma log_likelihood_inputs_only sx sy se sf sp s0 m0 r0 s1 m1 r1 :
  let self := {| x := sx; y := sy; y_err := se; func := sf;
                 parameters := sp;
                 sigma := s0; model := m0; residual := r0 |} in
  let self' := {| x := sx; y := sy; y_err := se; func := sf;
                  parameters := sp;
                  sigma := s1; model := m1; residual := r1 |} in
  returned (log_likelihood self') = returned (log_likelihood self) /\
  calls (log_likelihood self') = calls (log_likelihood self) /\
  (forall v, returned (log_likelihood self) = Ok v ->
     self_after (log_likelihood self') = self_after (log_likelihood self) /\
     is_Some (sigma (self_after (log_likelihood self))) /\
     is_Some (model (self_after (log_likelihood self))) /\
     is_Some (residual (self_after (log_likelihood self)))).
Proof.
  intros self self'. subst self self'. unfold log_likelihood.
  run_body.
  all: cbn [returned self_after calls log_before mret method_ret
              sigma model residual].
  all: split; [ reflexivity | split; [ reflexivity | ] ].
  all: intros v Hv; try discriminate Hv.
  repeat split; eexists; reflexivity.
Qed.

Lemma same_inputs_fields self self' :
  same_inputs self self' ->
  self' = {| x := x self; y := y self; y_err := y_err self;
             func := func self; parameters := parameters self;
             sigma := sigma self'; model := model self';
             residual := residual self' |}.
Proof.
  intros (Hx & Hy & He & Hf & Hp). destruct self'. cbn in *.
  subst. reflexivity.
Qed.

(** Before the sampler has filled in a sample the parameters of cell 31
    are all [None]: a call then raises [TypeError] at [None ** 2], in the
    first statement, and assigns nothing. *)
Lemma log_likelihood_unsampled (xs ys es : list R) :
  let self := {| x := Array xs; y := Array ys; y_err := Array es;
                 func := line; parameters := example2_parameters;
                 sigma := None; model := None; residual := None |} in
  log_likelihood self
  = {| returned := Raise TypeError; self_after := self;
       calls := [None; None; Some TypeError] |}.
Proof. reflexivity. Qed.

(** C10. A call to [log_likelihood] never touches [x], [y], [y_err],
    [func] or [parameters], and what it returns depends on these alone, so
    that repeated calls with the same parameter values return the same
    result.  A call that returns has assigned [sigma], [model] and
    [residual], whatever they held before, with values computed from the
    inputs; a receiver on which one of the three was still unset is
    therefore changed by the call.  On a well-formed receiver (numbers
    bound to ["a"], ["c"], ["sigma"]; conforming arrays) the call does
    return, and the three attributes hold the arrays of the
    [sqrt (yerr_i^2 + sigma^2)], the [mu x_i] and the
    [(y_i - mu x_i)^2]. *)
Theorem log_likelihood_effects :
  (forall self, same_inputs self (self_after (log_likelihood self))) /\
  (forall self self',
      same_inputs self self' ->
      returned (log_likelihood self') = returned (log_likelihood self)) /\
  (forall self v,
      returned (log_likelihood self) = Ok v ->
      is_Some (sigma (self_after (log_likelihood self))) /\
      is_Some (model (self_after (log_likelihood self))) /\
      is_Some (residual (self_after (log_likelihood self))) /\
      (forall self', same_inputs self self' ->
         self_after (log_likelihood self')
         = self_after (log_likelihood self)) /\
      (sigma self = None \/ model self = None \/ residual self = None ->
       self_after (log_likelihood self) <> self)) /\
  (forall self mu a c sg pts,
      well_formed self mu a c sg pts ->
      returned (log_likelihood self) = Ok (Float (ln_like_of mu sg pts)) /\
      sigma (self_after (log_likelihood self)) = Some (sigma_of sg pts) /\
      model (self_after (log_likelihood self)) = Some (model_of mu pts) /\
      residual (self_after (log_likelihood self))
      = Some (residual_of mu pts)).
Proof.
  split; [ apply log_likelihood_straight_line | ].
  split.
  { intros self self' Hsame. rewrite (same_inputs_fields _ _ Hsame).
    destruct self as [sx sy se sf sp s0 m0 r0]. cbn [x y y_err func parameters].
    apply log_likelihood_inputs_only. }
  split.
  - intros self v Hv.
    assert (Hall : forall self', same_inputs self self' ->
              self_after (log_likelihood self')
              = self_after (log_likelihood self) /\
              is_Some (sigma (self_after (log_likelihood self))) /\
              is_Some (model (self_after (log_likelihood self))) /\
              is_Some (residual (self_after (log_likelihood self)))).
    { intros self' Hsame. rewrite (same_inputs_fields _ _ Hsame).
      destruct self as [sx sy se sf sp s0 m0 r0].
      cbn [x y y_err func parameters].
      eapply log_likelihood_inputs_only. exact Hv. }
    destruct (Hall self (same_inputs_refl self)) as (_ & Hs & Hm & Hr).
    do 3 (split; [ assumption | ]).
    split; [ intros self' Hsame; apply (Hall self' Hsame) | ].
    intros Hunset Heq. rewrite Heq in Hs, Hm, Hr.
    destruct Hs as [? Hs], Hm as [? Hm], Hr as [? Hr].
    destruct Hunset as [H | [H | H]]; congruence.
  - intros self mu a c sg pts Hwf.
    rewrite (log_likelihood_run self mu a c sg pts Hwf).
    repeat split.
Qed.

Lemma log_likelihood_effects_witness :
  returned (log_likelihood two_point_likelihood)
  = Ok (Float (ln_like_of (fun xi => 0.5 * xi + 1) 0
                 (points [0; 1] [1; 2] [1; 1]))) /\
  sigma (self_after (log_likelihood two_point_likelihood))
  = Some (sigma_of 0 (points [0; 1] [1; 2] [1; 1])) /\
  self_after (log_likelihood two_point_likelihood) <> two_point_likelihood.
Proof.
  assert (Hwf : well_formed two_point_likelihood (fun xi => 0.5 * xi + 1)
                  0.5 1 0 (points [0; 1] [1; 2] [1; 1])).
  { constructor; reflexivity. }
  destruct log_likelihood_effects as (_ & _ & Hreturns & Hrun).
  destruct (Hrun _ _ _ _ _ _ Hwf) as (Hret & Hsigma & _).
  split; [ exact Hret | ].
  split; [ exact Hsigma | ].
  apply (Hreturns _ _ Hret). left. reflexivity.
Defined.

End Effects.

(** ** Error propagation *)

Section Propagation.
Import Py Models FakeData Likelihood Bilby Notebook.




End Propagation.

(** ** Priors, likelihood inputs and the Bayes factor *)

Section Cells.
Import Py Models FakeData Likelihood Bilby Notebook.

(** C4. The log Bayes factor of cell 54 is the log-evidence of the
    linear-model result minus that of the quadratic-model result; when the
    two log-evidences are the logarithms of positive evidences [Z_line]
    and [Z_quad], it is [ln (Z_line / Z_quad)]. *)
Theorem lnBF_log_evidence_ratio :
  forall (result_line result_quad : Result) (Z_line Z_quad : R),
    0 < Z_line -> 0 < Z_quad ->
    log_evidence result_line = ln Z_line ->
    log_evidence result_quad = ln Z_quad ->
    lnBF result_line result_quad
    = log_evidence result_line - log_evidence result_quad /\
    lnBF result_line result_quad = ln (Z_line / Z_quad).
Proof.
  intros rl rq Zl Zq Hl Hq El Eq.
  split; [ reflexivity | ].
  unfold lnBF, Rdiv. cbn zeta.
  rewrite ln_mult by (try apply Rinv_0_lt_compat; assumption).
  rewrite ln_Rinv by assumption. rewrite El, Eq. lra.
Qed.

Lemma lnBF_log_evidence_ratio_witness :
  lnBF {| log_evidence := ln 3 |} {| log_evidence := ln 2 |} = ln (3 / 2).
Proof.
  apply (lnBF_log_evidence_ratio
           {| log_evidence := ln 3 |} {| log_evidence := ln 2 |} 3 2);
    first [ lra | reflexivity ].
Defined.

(** A prior whose bounds are ordered and which carries the name of the
    key it is stored under. *)
Lemma bounds_ordered (low high : R) (key : string) :
  low < high ->
  minimum {| minimum := low; maximum := high; name := key |}
  < maximum {| minimum := low; maximum := high; name := key |} /\
  name {| minimum := low; maximum := high; name := key |} = key.
Proof. intros Hlt. split; [ exact Hlt | reflexivity ]. Qed.

(** C5. Each of the three prior dictionaries maps every key to a uniform
    prior named after the key with [minimum < maximum] (Example 1:
    [a] in [0,1], [c] in [0,4]; Example 2: [a] in [0,1], [c] in [0,4],
    [sigma] in [0,1]; Example 3: [a], [b], [c] in [-2,2]), and its key set
    is the set of free parameters of the likelihood it is sampled with:
    the arguments of [line], respectively [quadratic], after the first,
    and the keys of the [parameters] dictionary of Example 2. *)
Theorem priors_cover_parameters :
  map_Forall (fun key p => minimum p < maximum p /\ name p = key)
    example1_priors /\
  map_Forall (fun key p => minimum p < maximum p /\ name p = key)
    example2_priors /\
  map_Forall (fun key p => minimum p < maximum p /\ name p = key)
    example3_priors /\
  (example1_priors !! "a" = Some {| minimum := 0; maximum := 1; name := "a" |}
   /\ example1_priors !! "c"
      = Some {| minimum := 0; maximum := 4; name := "c" |}) /\
  (example2_priors !! "a" = Some {| minimum := 0; maximum := 1; name := "a" |}
   /\ example2_priors !! "c"
      = Some {| minimum := 0; maximum := 4; name := "c" |}
   /\ example2_priors !! "sigma"
      = Some {| minimum := 0; maximum := 1; name := "sigma" |}) /\
  (example3_priors !! "a"
   = Some {| minimum := -2; maximum := 2; name := "a" |}
   /\ example3_priors !! "b"
      = Some {| minimum := -2; maximum := 2; name := "b" |}
   /\ example3_priors !! "c"
      = Some {| minimum := -2; maximum := 2; name := "c" |}) /\
  dom example1_priors = inferred_parameters line_signature /\
  dom example2_priors = dom example2_parameters /\
  dom example3_priors = inferred_parameters quadratic_signature.
Proof.
  unfold example1_priors, example2_priors, example3_priors,
    example2_parameters, inferred_parameters, line_signature,
    quadratic_signature.
  do 3 (split;
          [ repeat (apply map_Forall_insert_2;
                      [ apply bounds_ordered; lra | ]);
            apply map_Forall_empty | ]).
  split; [ split; simplify_map_eq; reflexivity | ].
  split; [ split; [ | split ]; simplify_map_eq; reflexivity | ].
  split; [ split; [ | split ]; simplify_map_eq; reflexivity | ].
  cbn [tail list_to_set]. rewrite !dom_insert_L, !dom_empty_L.
  split; [ set_solver | ].
  split; set_solver.
Qed.

(** Adding an array to [ys] gives back [ys] only if every entry added is
    zero. *)
Lemma zip_with_plus_fixed (ys ns : list R) :
  length ns = length ys -> zip_with Rplus ys ns = ys ->
  Forall (fun v => v = 0) ns.
Proof.
  revert ns. induction ys as [ | yi ys IH ]; intros [ | v ns ] Hlen Heq;
    try discriminate Hlen; [ constructor | ].
  cbn in Heq. injection Heq as Hv Hrest. constructor.
  - lra.
  - apply IH; [ | exact Hrest ]. cbn in Hlen. lia.
Qed.

(** C8. Example 2 constructs its likelihood on the noiseless values
    [y = line(x, 0.5, 1)], Examples 1 and 3 construct theirs on
    [data = y + noise]; for a drawn noise array of [n] entries that is not
    identically zero the dependent-variable array of the Example 2 fit
    differs from the one the other two fits share. *)
Theorem example2_fits_noiseless_y :
  forall (noise : list R) (y_errs : pyobj),
    length noise = n -> Exists (fun v => v <> 0) noise ->
    exists (ys ds : list R) L1 L2 L3,
      FakeData.y = Ok (Array ys) /\
      data (Array noise) = Ok (Array ds) /\
      ds = zip_with Rplus ys noise /\
      example1_likelihood (Array noise) y_errs = Ok L1 /\
      example2_likelihood y_errs = Ok L2 /\
      example3_likelihood (Array noise) y_errs = Ok L3 /\
      Likelihood.y L2 = Array ys /\
      gl_y L1 = Array ds /\ gl_y L3 = Array ds /\
      Likelihood.y L2 <> gl_y L1 /\ Likelihood.y L2 <> gl_y L3.
Proof.
  intros noise y_errs Hlen Hnz.
  destruct y_entrywise as (xs & _ & Hxs & Hy).
  set (ys := (fun xi => 0.5 * xi + 1) <$> xs) in Hy.
  assert (Hys : length noise = length ys).
  { unfold ys. rewrite length_fmap. congruence. }
  assert (Hdata : data (Array noise) = Ok (Array (zip_with Rplus ys noise))).
  { unfold data. rewrite Hy, bind_Ok. unfold py_add, binop.
    rewrite broadcast2_same by (symmetry; exact Hys). reflexivity. }
  assert (Hne : Array ys <> Array (zip_with Rplus ys noise)).
  { intros Heq. injection Heq as Heq. symmetry in Heq.
    apply zip_with_plus_fixed in Heq; [ | exact Hys ].
    apply Exists_exists in Hnz as (v & Hv & Hv0).
    rewrite Forall_forall in Heq. apply Hv0, Heq, Hv. }
  exists ys, (zip_with Rplus ys noise).
  unfold example1_likelihood, example2_likelihood, example3_likelihood, init.
  rewrite Hdata, Hy, !bind_Ok.
  do 3 eexists. repeat (split; [ reflexivity | ]). cbn. split; exact Hne.
Qed.

Lemma example2_fits_noiseless_y_witness :
  exists (ys ds : list R) L1 L2 L3,
    FakeData.y = Ok (Array ys) /\
    data (Array [1; 0; 0; 0; 0; 0; 0; 0; 0; 0]) = Ok (Array ds) /\
    ds = zip_with Rplus ys [1; 0; 0; 0; 0; 0; 0; 0; 0; 0] /\
    example1_likelihood (Array [1; 0; 0; 0; 0; 0; 0; 0; 0; 0])
      (Array [1; 1; 1; 1; 1; 1; 1; 1; 1; 1]) = Ok L1 /\
    example2_likelihood (Array [1; 1; 1; 1; 1; 1; 1; 1; 1; 1]) = Ok L2 /\
    example3_likelihood (Array [1; 0; 0; 0; 0; 0; 0; 0; 0; 0])
      (Array [1; 1; 1; 1; 1; 1; 1; 1; 1; 1]) = Ok L3 /\
    Likelihood.y L2 = Array ys /\
    gl_y L1 = Array ds /\ gl_y L3 = Array ds /\
    Likelihood.y L2 <> gl_y L1 /\ Likelihood.y L2 <> gl_y L3.
Proof.
  apply (example2_fits_noiseless_y [1; 0; 0; 0; 0; 0; 0; 0; 0; 0]
           (Array [1; 1; 1; 1; 1; 1; 1; 1; 1; 1])).
  - reflexivity.
  - apply Exists_cons_hd. lra.
Defined.

End Cells.

(** ** The fitted receiver: values, bounds and symmetries *)

Section FitFacts.
Import Py Models Likelihood Notebook Fit.

Lemma sampled_lookup (a c sg : R) :
  sampled a c sg !! "a" = Some (Float a) /\
  sampled a c sg !! "c" = Some (Float c) /\
  sampled a c sg !! "sigma" = Some (Float sg).
Proof. unfold sampled. repeat split; simplify_map_eq; reflexivity. Qed.

(** [line_fit] is what the constructor builds from the columns. *)
Lemma line_fit_init (pts : list (R * R * R)) (a c sg : R) :
  init (Ok tt) (Array ((fun p => p.1.1) <$> pts))
    (Array ((fun p => p.1.2) <$> pts)) (Array ((fun p => p.2) <$> pts))
    line (sampled a c sg)
  = Ok (line_fit pts a c sg).
Proof. reflexivity. Qed.

Lemma line_fit_well_formed (pts : list (R * R * R)) (a c sg : R) :
  well_formed (line_fit pts a c sg) (fun xi => a * xi + c) a c sg pts.
Proof.
  destruct (sampled_lookup a c sg) as (Ha & Hc & Hs).
  split; try reflexivity; try assumption.
  cbn [func Likelihood.x line_fit]. rewrite line_array. unfold model_of.
  rewrite <- list_fmap_compose. reflexivity.
Qed.

Lemma line_fit_returns (pts : list (R * R * R)) (a c sg : R) :
  returned (log_likelihood (line_fit pts a c sg))
  = Ok (Float (gaussian_ln_like (fun xi => a * xi + c) sg pts)).
Proof.
  rewrite (log_likelihood_run _ _ _ _ _ _ (line_fit_well_formed pts a c sg)).
  cbn [returned]. rewrite ln_like_closed_form. reflexivity.
Qed.

Lemma gaussian_ln_like_cons mu sg (p : R * R * R) pts :
  gaussian_ln_like mu sg (p :: pts)
  = (- ((p.1.2 - mu p.1.1) ^ 2 / (2 * (p.2 ^ 2 + sg ^ 2)))
     - (1 / 2) * ln (2 * PI * (p.2 ^ 2 + sg ^ 2)))
    + gaussian_ln_like mu sg pts.
Proof. destruct p as [[xi yi] ei]. reflexivity. Qed.

Lemma gaussian_ln_like_split mu sg pts :
  gaussian_ln_like mu sg pts = normalisation sg pts - misfit mu sg pts.
Proof.
  induction pts as [ | p pts IH ].
  - unfold gaussian_ln_like, normalisation, misfit. cbn. lra.
  - rewrite gaussian_ln_like_cons, IH. unfold normalisation, misfit.
    cbn [fmap list_fmap foldr]. lra.
Qed.

Lemma square_pos (r : R) : r <> 0 -> 0 < r ^ 2.
Proof. intros Hr. destruct (Rdichotomy _ _ Hr); nra. Qed.

Lemma variance_pos (e sg : R) : e <> 0 \/ sg <> 0 -> 0 < e ^ 2 + sg ^ 2.
Proof.
  intros Hnz. pose proof (pow2_ge_0 e) as He. pose proof (pow2_ge_0 sg) as Hs.
  destruct Hnz as [H | H]; apply square_pos in H; lra.
Qed.

Lemma term_nonneg (r v : R) : 0 < v -> 0 <= r ^ 2 / (2 * v).
Proof.
  intros Hv. apply Rmult_le_pos; [ apply pow2_ge_0 | ].
  apply Rlt_le, Rinv_0_lt_compat. lra.
Qed.

Lemma term_zero (r v : R) : 0 < v -> r ^ 2 / (2 * v) = 0 -> r = 0.
Proof.
  intros Hv Hz. unfold Rdiv in Hz.
  apply Rmult_integral in Hz as [Hz | Hz].
  - destruct (Req_dec r 0) as [ | Hr ]; [ assumption | ].
    apply square_pos in Hr. lra.
  - assert (0 < / (2 * v)) by (apply Rinv_0_lt_compat; lra). lra.
Qed.

Lemma misfit_nonneg mu sg pts :
  Forall (fun p : R * R * R => p.2 <> 0 \/ sg <> 0) pts ->
  0 <= misfit mu sg pts /\
  (misfit mu sg pts = 0 <-> Forall (fun p => p.1.2 = mu p.1.1) pts).
Proof.
  induction 1 as [ | p pts Hp _ [IHpos IHzero] ]; unfold misfit in *;
    cbn [fmap list_fmap foldr].
  - split; [ lra | ]. split; [ constructor | reflexivity ].
  - pose proof (term_nonneg (p.1.2 - mu p.1.1) _ (variance_pos _ _ Hp)) as Ht.
    split; [ lra | ]. split.
    + intros Hsum. constructor.
      * assert (Hz : (p.1.2 - mu p.1.1) ^ 2 / (2 * (p.2 ^ 2 + sg ^ 2)) = 0)
          by lra.
        apply term_zero in Hz; [ lra | apply variance_pos, Hp ].
      * apply IHzero. lra.
    + intros Hall. apply Forall_cons in Hall as [Hhd Htl].
      apply IHzero in Htl. rewrite Htl, Hhd.
      replace (mu p.1.1 - mu p.1.1) with 0 by lra. lra.
Qed.

(** X5. Only the square of the parameter [sigma] enters: a sample with
    [sigma] negated has the same log-likelihood. *)
Theorem log_likelihood_sigma_sign (pts : list (R * R * R)) (a c sg : R) :
  returned (log_likelihood (line_fit pts a c (- sg)))
  = returned (log_likelihood (line_fit pts a c sg)).
Proof.
  rewrite !line_fit_returns. do 2 f_equal.
  unfold gaussian_ln_like. f_equal. apply list_fmap_ext.
  intros _ [[xi yi] ei] _. cbn zeta.
  replace ((- sg) ^ 2) with (sg ^ 2) by ring. reflexivity.
Qed.

(** X6. With no data points the log-likelihood is [0]; the log-likelihood of
    two data sets put together is the sum of their log-likelihoods. *)
Theorem log_likelihood_additive (pts1 pts2 : list (R * R * R)) (a c sg : R) :
  returned (log_likelihood (line_fit [] a c sg)) = Ok (Float 0) /\
  exists l1 l2 : R,
    returned (log_likelihood (line_fit pts1 a c sg)) = Ok (Float l1) /\
    returned (log_likelihood (line_fit pts2 a c sg)) = Ok (Float l2) /\
    returned (log_likelihood (line_fit (pts1 ++ pts2) a c sg))
    = Ok (Float (l1 + l2)).
Proof.
  rewrite !line_fit_returns. split; [ reflexivity | ].
  do 2 eexists. do 2 (split; [ reflexivity | ]). do 2 f_equal.
  induction pts1 as [ | p pts1 IH ].
  - cbn [app]. change (gaussian_ln_like (fun xi => a * xi + c) sg []) with 0.
    lra.
  - cbn [app]. rewrite !gaussian_ln_like_cons, IH. lra.
Qed.

(** X7. The order of the data points does not matter. *)
Theorem log_likelihood_permutation (pts pts' : list (R * R * R))
    (a c sg : R) :
  Permutation pts pts' ->
  returned (log_likelihood (line_fit pts' a c sg))
  = returned (log_likelihood (line_fit pts a c sg)).
Proof.
  intros Hperm. rewrite !line_fit_returns. do 2 f_equal.
  induction Hperm as [ | p l l' _ IH | p q l | l l' l'' _ IH1 _ IH2 ].
  - reflexivity.
  - rewrite !gaussian_ln_like_cons, IH. reflexivity.
  - rewrite !gaussian_ln_like_cons. lra.
  - congruence.
Qed.

Lemma log_likelihood_permutation_witness :
  returned (log_likelihood
              (line_fit [(1, 2, 1); (0, 1, 1)] (1 / 2) 1 0))
  = returned (log_likelihood
                (line_fit [(0, 1, 1); (1, 2, 1)] (1 / 2) 1 0)).
Proof.
  apply (log_likelihood_permutation [(0, 1, 1); (1, 2, 1)]
           [(1, 2, 1); (0, 1, 1)]).
  apply perm_swap.
Defined.

(** X8. When every variance [yerr_i^2 + sigma^2] is positive, the
    log-likelihood is at most the normalisation term, and reaches it
    exactly when the line passes through every data point. *)
Theorem log_likelihood_upper_bound (pts : list (R * R * R)) (a c sg : R) :
  Forall (fun p : R * R * R => p.2 <> 0 \/ sg <> 0) pts ->
  exists l : R,
    returned (log_likelihood (line_fit pts a c sg)) = Ok (Float l) /\
    l <= normalisation sg pts /\
    (l = normalisation sg pts <->
     Forall (fun p : R * R * R => p.1.2 = a * p.1.1 + c) pts).
Proof.
  intros Hvar. rewrite line_fit_returns. eexists. split; [ reflexivity | ].
  rewrite gaussian_ln_like_split.
  destruct (misfit_nonneg (fun xi => a * xi + c) sg pts Hvar) as [Hpos Hzero].
  split; [ lra | ]. rewrite <- Hzero. split; lra.
Qed.

Lemma log_likelihood_upper_bound_witness :
  exists l : R,
    returned (log_likelihood (line_fit [(0, 1, 1); (1, 2, 1)] (1 / 2) 1 0))
    = Ok (Float l) /\
    l <= normalisation 0 [(0, 1, 1); (1, 2, 1)] /\
    (l = normalisation 0 [(0, 1, 1); (1, 2, 1)] <->
     Forall (fun p : R * R * R => p.1.2 = 1 / 2 * p.1.1 + 1)
       [(0, 1, 1); (1, 2, 1)]).
Proof.
  apply (log_likelihood_upper_bound [(0, 1, 1); (1, 2, 1)] (1 / 2) 1 0).
  repeat constructor; cbn; lra.
Defined.

End FitFacts.

(** ** Calls that raise part-way *)

(** Stepping through a method body, looking dictionary entries up in the
    hypotheses. *)
Ltac run_method :=
  repeat first
    [ rewrite bind_attr
    | rewrite bind_call
    | rewrite bind_attr_opt
    | erewrite bind_set by reflexivity
    | match goal with
      | H : ?m !! ?k = _ |- context [?m !! ?k] => rewrite H
      end
    | rewrite binop_arrays_same
    | rewrite binop_array_float
    | rewrite binop_float_array
    | rewrite <- list_fmap_compose
    | rewrite log_before_app
    | progress cbn [Likelihood.x Likelihood.y Likelihood.y_err
                      Likelihood.func Likelihood.parameters
                      Likelihood.sigma Likelihood.model Likelihood.residual
                      Py.unop app] ].

Section PartialCalls.
Import Py Models FakeData Likelihood Notebook Fit.

Lemma broadcast2_mismatch (f : R -> R -> R) (xs ys : list R) :
  length xs <> length ys -> length xs <> 1%nat -> length ys <> 1%nat ->
  broadcast2 f xs ys = Raise ValueError.
Proof.
  intros Hne Hx Hy. unfold broadcast2. rewrite decide_False by exact Hne.
  destruct xs as [ | x0 [ | x1 xs ] ], ys as [ | y0 [ | y1 ys ] ];
    cbn in Hx, Hy; congruence.
Qed.

(** X1. A parameters dictionary without the key ["sigma"]: the call raises
    [KeyError] in its first statement, after squaring [y_err], and the
    receiver is left exactly as it was. *)
Theorem log_likelihood_missing_sigma (self : CustomGaussianLikelihood) :
  y_err self <> PyNone ->
  parameters self !! "sigma" = None ->
  log_likelihood self
  = {| returned := Raise (KeyError "sigma"); self_after := self;
       calls := [None; Some (KeyError "sigma")] |}.
Proof.
  intros Herr Hkey. destruct self as [sx sy se sf sp s0 m0 r0].
  cbn in Herr, Hkey. unfold log_likelihood, getitem.
  rewrite bind_attr, bind_call. cbn [y_err].
  destruct se as [ | e | es ]; [ congruence | | ]; cbn [py_pow unop];
    rewrite bind_attr, bind_call; cbn [parameters]; rewrite Hkey;
    reflexivity.
Qed.

Lemma log_likelihood_missing_sigma_witness :
  log_likelihood
    {| Likelihood.x := Array [0; 1]; Likelihood.y := Array [1; 2];
       y_err := Array [1; 1]; func := line; parameters := ∅;
       sigma := None; model := None; residual := None |}
  = {| returned := Raise (KeyError "sigma");
       self_after :=
         {| Likelihood.x := Array [0; 1]; Likelihood.y := Array [1; 2];
            y_err := Array [1; 1]; func := line; parameters := ∅;
            sigma := None; model := None; residual := None |};
       calls := [None; Some (KeyError "sigma")] |}.
Proof.
  apply log_likelihood_missing_sigma.
  - discriminate.
  - reflexivity.
Defined.

(** X2. A dictionary that binds ["sigma"] to a number but lacks ["a"]: the
    call raises [KeyError "a"] in its second statement; one that binds
    ["a"] and lacks ["c"]: it raises [KeyError "c"] there.  In both cases
    [self.sigma] has been assigned by then; [model] and [residual] keep
    what they held. *)
Theorem log_likelihood_missing_coefficient
    (self : CustomGaussianLikelihood) (es : list R) (sg : R) :
  y_err self = Array es ->
  parameters self !! "sigma" = Some (Float sg) ->
  (parameters self !! "a" = None ->
   returned (log_likelihood self) = Raise (KeyError "a") /\
   self_after (log_likelihood self)
   = {| x := x self; y := y self; y_err := y_err self; func := func self;
        parameters := parameters self;
        sigma := Some (Array ((fun e => sqrt (e ^ 2 + sg ^ 2)) <$> es));
        model := model self; residual := residual self |}) /\
  (is_Some (parameters self !! "a") -> parameters self !! "c" = None ->
   returned (log_likelihood self) = Raise (KeyError "c") /\
   self_after (log_likelihood self)
   = {| x := x self; y := y self; y_err := y_err self; func := func self;
        parameters := parameters self;
        sigma := Some (Array ((fun e => sqrt (e ^ 2 + sg ^ 2)) <$> es));
        model := model self; residual := residual self |}).
Proof.
  intros Herr Hs. destruct self as [sx sy se sf sp s0 m0 r0].
  cbn in Herr, Hs. subst se. cbn [x y y_err func parameters model residual].
  split; [ intros Ha | intros [va Ha] Hc ];
    unfold log_likelihood, getitem, py_pow, py_add, np_sqrt;
    run_method; split; reflexivity.
Qed.

Lemma log_likelihood_missing_coefficient_witness :
  returned (log_likelihood
              {| Likelihood.x := Array [0; 1]; Likelihood.y := Array [1; 2];
                 y_err := Array [1; 1]; func := line;
                 parameters := <["sigma" := Float 0]> ∅;
                 sigma := None; model := None; residual := None |})
  = Raise (KeyError "a") /\
  returned (log_likelihood
              {| Likelihood.x := Array [0; 1]; Likelihood.y := Array [1; 2];
                 y_err := Array [1; 1]; func := line;
                 parameters := <["a" := Float 1]> (<["sigma" := Float 0]> ∅);
                 sigma := None; model := None; residual := None |})
  = Raise (KeyError "c").
Proof.
  split.
  - refine (proj1 (proj1 (log_likelihood_missing_coefficient
              {| Likelihood.x := Array [0; 1]; Likelihood.y := Array [1; 2];
                 y_err := Array [1; 1]; func := line;
                 parameters := <["sigma" := Float 0]> ∅;
                 sigma := None; model := None; residual := None |}
              [1; 1] 0 _ _) _)); reflexivity.
  - refine (proj1 (proj2 (log_likelihood_missing_coefficient
              {| Likelihood.x := Array [0; 1]; Likelihood.y := Array [1; 2];
                 y_err := Array [1; 1]; func := line;
                 parameters := <["a" := Float 1]> (<["sigma" := Float 0]> ∅);
                 sigma := None; model := None; residual := None |}
              [1; 1] 0 _ _) _ _)); first [ reflexivity | eexists; reflexivity ].
Defined.

End PartialCalls.

Section ShapesAndScalars.
Import Py Models FakeData Likelihood Notebook Fit.

Lemma binop_float_float (f : R -> R -> R) (a b : R) :
  binop f (Float a) (Float b) = Ok (Float (f a b)).
Proof. reflexivity. Qed.

(** X3. Data arrays that do not conform: when the model array and [y] have
    different lengths, neither of them 1, the subtraction [self.y -
    self.model] raises [ValueError].  [sigma] and [model] have been
    assigned by then, [residual] keeps what it held. *)
Theorem log_likelihood_shape_mismatch
    (self : CustomGaussianLikelihood) (ys es ms : list R) (a c sg : R) :
  y self = Array ys -> y_err self = Array es ->
  parameters self !! "a" = Some (Float a) ->
  parameters self !! "c" = Some (Float c) ->
  parameters self !! "sigma" = Some (Float sg) ->
  func self (x self) (Float a) (Float c) = Ok (Array ms) ->
  length ms <> length ys -> length ms <> 1%nat -> length ys <> 1%nat ->
  returned (log_likelihood self) = Raise ValueError /\
  self_after (log_likelihood self)
  = {| x := x self; y := y self; y_err := y_err self; func := func self;
       parameters := parameters self;
       sigma := Some (Array ((fun e => sqrt (e ^ 2 + sg ^ 2)) <$> es));
       model := Some (Array ms); residual := residual self |}.
Proof.
  intros Hy He Ha Hc Hs Hf Hlen Hm1 Hy1.
  destruct self as [sx sy se sf sp s0 m0 r0].
  cbn in Hy, He, Ha, Hc, Hs, Hf. subst sy se.
  unfold log_likelihood, getitem, py_pow, py_add, py_sub, np_sqrt.
  run_method. rewrite Hf. run_method.
  unfold binop. rewrite broadcast2_mismatch by auto.
  split; reflexivity.
Qed.

Lemma log_likelihood_shape_mismatch_witness :
  returned (log_likelihood
              {| Likelihood.x := Array [0; 1; 2];
                 Likelihood.y := Array [1; 2];
                 y_err := Array [1; 1]; func := line;
                 parameters := sampled (1 / 2) 1 0;
                 sigma := None; model := None; residual := None |})
  = Raise ValueError /\
  self_after (log_likelihood
              {| Likelihood.x := Array [0; 1; 2];
                 Likelihood.y := Array [1; 2];
                 y_err := Array [1; 1]; func := line;
                 parameters := sampled (1 / 2) 1 0;
                 sigma := None; model := None; residual := None |})
  = {| Likelihood.x := Array [0; 1; 2]; Likelihood.y := Array [1; 2];
       y_err := Array [1; 1]; func := line;
       parameters := sampled (1 / 2) 1 0;
       sigma := Some (Array ((fun e => sqrt (e ^ 2 + 0 ^ 2)) <$> [1; 1]));
       model := Some (Array ((fun xi => 1 / 2 * xi + 1) <$> [0; 1; 2]));
       residual := None |}.
Proof.
  refine (log_likelihood_shape_mismatch
            {| Likelihood.x := Array [0; 1; 2];
               Likelihood.y := Array [1; 2];
               y_err := Array [1; 1]; func := line;
               parameters := sampled (1 / 2) 1 0;
               sigma := None; model := None; residual := None |}
            [1; 2] [1; 1] ((fun xi => 1 / 2 * xi + 1) <$> [0; 1; 2])
            (1 / 2) 1 0 _ _ _ _ _ _ _ _ _);
    first [ reflexivity | discriminate ].
Defined.

(** X4. The likelihood exactly as cell 31 builds it, all parameters still
    [None]: a call raises [TypeError] at [None ** 2] and assigns
    nothing. *)
Theorem example2_likelihood_unsampled (y_errs : list R) :
  exists self : CustomGaussianLikelihood,
    example2_likelihood (Array y_errs) = Ok self /\
    sigma self = None /\ model self = None /\ residual self = None /\
    log_likelihood self
    = {| returned := Raise TypeError; self_after := self;
         calls := [None; None; Some TypeError] |}.
Proof.
  destruct y_entrywise as (xs & Hx & _ & Hy).
  unfold example2_likelihood. rewrite Hy, bind_Ok.
  eexists. split; [ reflexivity | ]. repeat split.
Qed.

(** X11. One number given as [y_err] acts as that measurement error on every
    point: the call returns what it returns for the array that repeats
    the number. *)
Theorem log_likelihood_scalar_err (pts : list (R * R)) (err a c sg : R) :
  returned (log_likelihood (line_fit_scalar_err pts err a c sg))
  = returned (log_likelihood
                (line_fit ((fun p => (p.1, p.2, err)) <$> pts) a c sg)).
Proof.
  rewrite line_fit_returns.
  destruct (sampled_lookup a c sg) as (Ha & Hc & Hs).
  unfold line_fit_scalar_err, log_likelihood, getitem, py_pow, py_add,
    py_sub, py_mul, py_neg, np_div, np_sqrt, np_log, np_sum.
  repeat first
    [ progress run_method
    | rewrite line_array
    | rewrite binop_float_float ].
  cbn [binop]. run_method.
  cbn [returned log_before mret method_ret]. do 2 f_equal.
  unfold gaussian_ln_like. rewrite <- list_fmap_compose. f_equal.
  apply list_fmap_ext. intros _ [xi yi] _. unfold compose. cbn [fst snd].
  assert (Hvar : sqrt (err ^ 2 + sg ^ 2) ^ 2 = err ^ 2 + sg ^ 2).
  { apply pow2_sqrt. pose proof (pow2_ge_0 err). pose proof (pow2_ge_0 sg).
    lra. }
  rewrite Hvar. unfold np_pi. lra.
Qed.

End ShapesAndScalars.

Section StoredArrays.
Import Py Models FakeData Likelihood Notebook Fit.

Lemma abs_le_sqrt_sum (e sg : R) : Rabs e <= sqrt (e ^ 2 + sg ^ 2).
Proof.
  rewrite <- (sqrt_pow2 (Rabs e)) at 1 by apply Rabs_pos.
  rewrite pow2_abs. apply sqrt_le_1_alt.
  pose proof (pow2_ge_0 sg). lra.
Qed.

(** X9. What a returning call leaves in the receiver: [sigma], [model] and
    [residual] hold one entry per data point; the stored [sigma_i] is the
    inflated error, with square [yerr_i^2 + sigma^2] and at least
    [|yerr_i|] and [|sigma|]; no stored residual is negative. *)
Theorem log_likelihood_stored_arrays (pts : list (R * R * R)) (a c sg : R) :
  exists ss ms rs : list R,
    sigma (self_after (log_likelihood (line_fit pts a c sg)))
    = Some (Array ss) /\
    model (self_after (log_likelihood (line_fit pts a c sg)))
    = Some (Array ms) /\
    residual (self_after (log_likelihood (line_fit pts a c sg)))
    = Some (Array rs) /\
    length ss = length pts /\ length ms = length pts /\
    length rs = length pts /\
    (forall i p s, pts !! i = Some p -> ss !! i = Some s ->
       s ^ 2 = p.2 ^ 2 + sg ^ 2 /\ Rabs p.2 <= s /\ Rabs sg <= s) /\
    Forall (fun r => 0 <= r) rs.
Proof.
  rewrite (log_likelihood_run _ _ _ _ _ _ (line_fit_well_formed pts a c sg)).
  cbn [self_after sigma model residual]. unfold sigma_of, model_of, residual_of.
  do 3 eexists. do 3 (split; [ reflexivity | ]).
  rewrite !length_fmap. do 3 (split; [ reflexivity | ]). split.
  - intros i p s Hp Hs. rewrite list_lookup_fmap, Hp in Hs.
    injection Hs as <-. split; [ | split ].
    + apply pow2_sqrt. pose proof (pow2_ge_0 p.2). pose proof (pow2_ge_0 sg).
      lra.
    + apply abs_le_sqrt_sum.
    + rewrite Rplus_comm. apply abs_le_sqrt_sum.
  - apply Forall_fmap, Forall_forall. intros p _. cbn. apply pow2_ge_0.
Qed.

(** X10. Example 2 fits the noiseless [y = line(x, 0.5, 1)]: with the
    parameters at the injected values [a = 0.5], [c = 1], whatever
    [sigma], every stored residual is [0] and the call returns the
    normalisation term, which no other [(a, c)] exceeds. *)
Theorem example2_injected_values_maximise (y_errs : list R) (sg : R) :
  length y_errs = n ->
  Forall (fun e => e <> 0 \/ sg <> 0) y_errs ->
  exists (xs ys : list R),
    FakeData.x = Array xs /\ FakeData.y = Ok (Array ys) /\
    init (Ok tt) FakeData.x (Array ys) (Array y_errs) line (sampled 0.5 1 sg)
    = Ok (line_fit (points xs ys y_errs) 0.5 1 sg) /\
    returned (log_likelihood (line_fit (points xs ys y_errs) 0.5 1 sg))
    = Ok (Float (normalisation sg (points xs ys y_errs))) /\
    residual (self_after
                (log_likelihood (line_fit (points xs ys y_errs) 0.5 1 sg)))
    = Some (Array (replicate n 0)) /\
    forall a c : R,
    exists l : R,
      returned (log_likelihood (line_fit (points xs ys y_errs) a c sg))
      = Ok (Float l) /\
      l <= normalisation sg (points xs ys y_errs).
Proof.
  intros Hlen Hvar. destruct y_entrywise as (xs & Hx & Hxs & Hy).
  set (ys := (fun xi => 0.5 * xi + 1) <$> xs) in *.
  assert (Lys : length ys = length xs) by (unfold ys; apply length_fmap).
  assert (Les : length y_errs = length xs) by congruence.
  set (pts := points xs ys y_errs).
  pose proof (points_x xs ys y_errs Lys Les) as Cx.
  pose proof (points_y xs ys y_errs Lys Les) as Cy.
  pose proof (points_err xs ys y_errs Lys Les) as Ce.
  fold pts in Cx, Cy, Ce.
  assert (Hfit : Forall (fun p : R * R * R => p.1.2 = 0.5 * p.1.1 + 1) pts).
  { apply Forall_lookup. intros i p Hp.
    assert (Hi : ((fun p : R * R * R => p.1.2) <$> pts) !! i
                 = ((fun xi => 0.5 * xi + 1)
                      <$> ((fun p : R * R * R => p.1.1) <$> pts)) !! i).
    { rewrite Cx, Cy. reflexivity. }
    rewrite !list_lookup_fmap, Hp in Hi. cbn in Hi. congruence. }
  assert (Hpos : Forall (fun p : R * R * R => p.2 <> 0 \/ sg <> 0) pts).
  { rewrite <- Ce in Hvar. apply Forall_fmap in Hvar. exact Hvar. }
  assert (Lpts : length pts = n).
  { rewrite <- Hxs, <- Cx at 1. rewrite length_fmap. reflexivity. }
  exists xs, ys. split; [ exact Hx | ]. split; [ exact Hy | ]. split.
  { rewrite <- line_fit_init. fold pts. rewrite Cx, Cy, Ce, Hx. reflexivity. }
  fold pts. split; [ | split ].
  - rewrite line_fit_returns, gaussian_ln_like_split. do 2 f_equal.
    destruct (misfit_nonneg (fun xi => 0.5 * xi + 1) sg pts Hpos) as [_ Hz].
    apply Hz in Hfit. lra.
  - rewrite (log_likelihood_run _ _ _ _ _ _
               (line_fit_well_formed pts 0.5 1 sg)).
    cbn [self_after residual]. unfold residual_of. do 2 f_equal.
    rewrite <- Lpts. apply const_fmap. intros i p Hp.
    rewrite Forall_lookup in Hfit. rewrite (Hfit i p Hp).
    replace (0.5 * p.1.1 + 1 - (0.5 * p.1.1 + 1)) with 0 by lra. lra.
  - intros a c. rewrite line_fit_returns. eexists. split; [ reflexivity | ].
    rewrite gaussian_ln_like_split.
    destruct (misfit_nonneg (fun xi => a * xi + c) sg pts Hpos) as [Hge _].
    lra.
Qed.

Lemma example2_injected_values_maximise_witness :
  exists (xs ys : list R),
    FakeData.x = Array xs /\ FakeData.y = Ok (Array ys) /\
    init (Ok tt) FakeData.x (Array ys) (Array (replicate 10 1)) line
      (sampled 0.5 1 0)
    = Ok (line_fit (points xs ys (replicate 10 1)) 0.5 1 0) /\
    returned (log_likelihood
                (line_fit (points xs ys (replicate 10 1)) 0.5 1 0))
    = Ok (Float (normalisation 0 (points xs ys (replicate 10 1)))) /\
    residual (self_after
                (log_likelihood
                   (line_fit (points xs ys (replicate 10 1)) 0.5 1 0)))
    = Some (Array (replicate n 0)) /\
    forall a c : R,
    exists l : R,
      returned (log_likelihood
                  (line_fit (points xs ys (replicate 10 1)) a c 0))
      = Ok (Float l) /\
      l <= normalisation 0 (points xs ys (replicate 10 1)).
Proof.
  apply (example2_injected_values_maximise (replicate 10 1) 0).
  - reflexivity.
  - repeat constructor; lra.
Defined.

End StoredArrays.

(** ** The posterior-draw loops of the plot cells *)

Section PosteriorDraws.
Import Py Models Plots.

Lemma for_each_ok {A : Type} (body : nat -> res A) (g : nat -> A)
    (indices : list nat) :
  Forall (fun i => body i = Ok (g i)) indices ->
  for_each body indices = Ok (g <$> indices).
Proof.
  induction 1 as [ | i rest Hi _ IH ]; [ reflexivity | ].
  cbn [for_each]. rewrite Hi, bind_Ok, IH. reflexivity.
Qed.

Lemma for_each_raise {A : Type} (body : nat -> res A) (g : nat -> A)
    (before : list nat) (i : nat) (rest : list nat) (e : exn) :
  Forall (fun j => body j = Ok (g j)) before ->
  body i = Raise e ->
  for_each body (before ++ i :: rest) = Raise e.
Proof.
  intros Hbefore Hi. induction Hbefore as [ | j before Hj _ IH ].
  - cbn. rewrite Hi. reflexivity.
  - cbn [app for_each]. rewrite Hj, bind_Ok, IH. reflexivity.
Qed.

(** The loop over [range(0, 25)] stops at the first index [k] at which a
    pass raises, every pass before it having produced a value. *)
Lemma for_each_range_raise {A : Type} (body : nat -> res A) (g : nat -> A)
    (k : nat) (e : exn) :
  (k < 25)%nat ->
  (forall j, (j < k)%nat -> body j = Ok (g j)) ->
  body k = Raise e ->
  for_each body (seq 0 25) = Raise e.
Proof.
  intros Hk Hbefore Hraise.
  replace 25%nat with (k + S (25 - S k))%nat by lia.
  rewrite seq_app. cbn [seq]. apply (for_each_raise body g); [ | exact Hraise ].
  apply Forall_forall. intros j Hj. apply Hbefore.
  apply elem_of_seq in Hj. lia.
Qed.

Lemma xfit_points : exists ts : list R, xfit = Array ts /\ length ts = 32%nat.
Proof.
  unfold xfit, np_linspace. eexists. split; [ reflexivity | ].
  rewrite length_fmap. apply length_seq.
Qed.

Lemma getindex_Some (a : list R) (i : nat) (v : R) :
  a !! i = Some v -> getindex a i = Ok (Float v).
Proof. intros H. unfold getindex. rewrite H. reflexivity. Qed.

Lemma getindex_short (a : list R) (i : nat) :
  (length a <= i)%nat -> getindex a i = Raise (LibraryError "IndexError").
Proof.
  intros H. unfold getindex. rewrite lookup_ge_None_2 by exact H. reflexivity.
Qed.

(** X14. The loop of cells 25 and 37 draws the first 25 posterior samples: with
    at least 25 samples of [a] and of [c] it produces 25 lines on the 32
    points of [xfit], the [i]-th from the [i]-th sample; with fewer
    samples of either it raises [IndexError]. *)
Theorem posterior_draws_first_25 (a_vals c_vals : list R) :
  exists ts : list R,
    xfit = Array ts /\ length ts = 32%nat /\
    ((25 <= length a_vals)%nat -> (25 <= length c_vals)%nat ->
     exists instances : list pyobj,
       posterior_draws a_vals c_vals = Ok instances /\
       length instances = 25%nat /\
       forall i a c,
         (i < 25)%nat -> a_vals !! i = Some a -> c_vals !! i = Some c ->
         instances !! i = Some (Array ((fun t => a * t + c) <$> ts))) /\
    ((length a_vals < 25)%nat \/ (length c_vals < 25)%nat ->
     posterior_draws a_vals c_vals = Raise (LibraryError "IndexError")).
Proof.
  destruct xfit_points as (ts & Hts & Lts).
  exists ts. split; [ exact Hts | ]. split; [ exact Lts | ].
  set (g := fun i : nat =>
              Array ((fun t => default 0 (a_vals !! i) * t
                               + default 0 (c_vals !! i)) <$> ts)).
  assert (Hpass : forall i, (i < length a_vals)%nat ->
            (i < length c_vals)%nat ->
            (a ← getindex a_vals i; c ← getindex c_vals i; line xfit a c)
            = Ok (g i)).
  { intros i Ha Hc.
    apply lookup_lt_is_Some_2 in Ha as [a Ha].
    apply lookup_lt_is_Some_2 in Hc as [c Hc].
    rewrite (getindex_Some _ _ _ Ha), bind_Ok.
    rewrite (getindex_Some _ _ _ Hc), bind_Ok.
    rewrite Hts, line_array. unfold g. rewrite Ha, Hc. reflexivity. }
  split.
  - intros La Lc. exists (g <$> seq 0 25). split; [ | split ].
    + unfold posterior_draws. apply for_each_ok, Forall_forall.
      intros i Hi. apply elem_of_seq in Hi. apply Hpass; lia.
    + rewrite length_fmap. apply length_seq.
    + intros i a c Hi Ha Hc. rewrite list_lookup_fmap, lookup_seq_lt by exact Hi.
      cbn. unfold g. rewrite Ha, Hc. reflexivity.
  - intros Hshort. unfold posterior_draws.
    apply (for_each_range_raise _ g (min (length a_vals) (length c_vals))).
    + lia.
    + intros j Hj. apply Hpass; lia.
    + destruct (le_lt_dec (length a_vals) (length c_vals)) as [Hle | Hlt].
      * rewrite Nat.min_l by exact Hle.
        rewrite (getindex_short a_vals) by lia. reflexivity.
      * rewrite Nat.min_r by lia.
        destruct (lookup_lt_is_Some_2 a_vals (length c_vals) Hlt) as [a Ha].
        rewrite (getindex_Some _ _ _ Ha), bind_Ok.
        rewrite (getindex_short c_vals) by lia. reflexivity.
Qed.

Lemma posterior_draws_first_25_witness :
  posterior_draws [1; 2; 3] [0; 0; 0] = Raise (LibraryError "IndexError").
Proof.
  destruct (posterior_draws_first_25 [1; 2; 3] [0; 0; 0])
    as (ts & _ & _ & _ & Hshort).
  apply Hshort. left. cbn. lia.
Defined.

(** X15. The loop of cell 49 does the same for the quadratic model and the
    three sample arrays. *)
Theorem posterior_draws_quad_first_25 (a_vals b_vals c_vals : list R) :
  exists ts : list R,
    xfit = Array ts /\ length ts = 32%nat /\
    ((25 <= length a_vals)%nat -> (25 <= length b_vals)%nat ->
     (25 <= length c_vals)%nat ->
     exists instances : list pyobj,
       posterior_draws_quad a_vals b_vals c_vals = Ok instances /\
       length instances = 25%nat /\
       forall i a b c,
         (i < 25)%nat -> a_vals !! i = Some a -> b_vals !! i = Some b ->
         c_vals !! i = Some c ->
         instances !! i
         = Some (Array ((fun t => a * t ^ 2 + b * t + c) <$> ts))) /\
    ((length a_vals < 25)%nat \/ (length b_vals < 25)%nat \/
     (length c_vals < 25)%nat ->
     posterior_draws_quad a_vals b_vals c_vals
     = Raise (LibraryError "IndexError")).
Proof.
  destruct xfit_points as (ts & Hts & Lts).
  exists ts. split; [ exact Hts | ]. split; [ exact Lts | ].
  set (g := fun i : nat =>
              Array ((fun t => default 0 (a_vals !! i) * t ^ 2
                               + default 0 (b_vals !! i) * t
                               + default 0 (c_vals !! i)) <$> ts)).
  assert (Hquad : forall a b c,
            quadratic (Array ts) (Float a) (Float b) (Float c)
            = Ok (Array ((fun t => a * t ^ 2 + b * t + c) <$> ts))).
  { intros a b c. unfold quadratic, py_pow, py_mul, py_add.
    cbn [unop]. rewrite bind_Ok, !binop_float_array, !bind_Ok.
    rewrite <- list_fmap_compose, binop_arrays_same, bind_Ok.
    rewrite binop_array_float, <- list_fmap_compose. reflexivity. }
  assert (Hpass : forall i, (i < length a_vals)%nat ->
            (i < length b_vals)%nat -> (i < length c_vals)%nat ->
            (a ← getindex a_vals i; b ← getindex b_vals i;
             c ← getindex c_vals i; quadratic xfit a b c)
            = Ok (g i)).
  { intros i Ha Hb Hc.
    apply lookup_lt_is_Some_2 in Ha as [a Ha].
    apply lookup_lt_is_Some_2 in Hb as [b Hb].
    apply lookup_lt_is_Some_2 in Hc as [c Hc].
    rewrite (getindex_Some _ _ _ Ha), bind_Ok.
    rewrite (getindex_Some _ _ _ Hb), bind_Ok.
    rewrite (getindex_Some _ _ _ Hc), bind_Ok.
    rewrite Hts, Hquad. unfold g. rewrite Ha, Hb, Hc. reflexivity. }
  split.
  - intros La Lb Lc. exists (g <$> seq 0 25). split; [ | split ].
    + unfold posterior_draws_quad. apply for_each_ok, Forall_forall.
      intros i Hi. apply elem_of_seq in Hi. apply Hpass; lia.
    + rewrite length_fmap. apply length_seq.
    + intros i a b c Hi Ha Hb Hc.
      rewrite list_lookup_fmap, lookup_seq_lt by exact Hi.
      cbn. unfold g. rewrite Ha, Hb, Hc. reflexivity.
  - intros Hshort. unfold posterior_draws_quad.
    set (k := min (length a_vals) (min (length b_vals) (length c_vals))).
    apply (for_each_range_raise _ g k).
    + unfold k. lia.
    + intros j Hj. unfold k in Hj. apply Hpass; lia.
    + destruct (le_lt_dec (length a_vals) k) as [Ha | Ha].
      { rewrite (getindex_short a_vals) by exact Ha. reflexivity. }
      destruct (lookup_lt_is_Some_2 a_vals k Ha) as [a Hka].
      rewrite (getindex_Some _ _ _ Hka), bind_Ok.
      destruct (le_lt_dec (length b_vals) k) as [Hb | Hb].
      { rewrite (getindex_short b_vals) by exact Hb. reflexivity. }
      destruct (lookup_lt_is_Some_2 b_vals k Hb) as [b Hkb].
      rewrite (getindex_Some _ _ _ Hkb), bind_Ok.
      rewrite (getindex_short c_vals) by (unfold k in *; lia). reflexivity.
Qed.

Lemma posterior_draws_quad_first_25_witness :
  posterior_draws_quad [1; 2; 3] [0; 0; 0] [1; 1; 1]
  = Raise (LibraryError "IndexError").
Proof.
  destruct (posterior_draws_quad_first_25 [1; 2; 3] [0; 0; 0] [1; 1; 1])
    as (ts & _ & _ & _ & Hshort).
  apply Hshort. left. cbn. lia.
Defined.

End PosteriorDraws.

(** ** The fake data, the Bayes factor and the domain of the models *)

Section DataAndModels.
Import Py Models FakeData Likelihood Bilby Notebook Fit.

(** X12. For draws of [np.random.rand] in [[0, 1)], the measurement errors
    [y_errs = 0.1 + 1.0 * draws] are one per draw and lie in
    [[0.1, 1.1)]: none is zero, so with them every variance
    [yerr_i^2 + sigma^2] is positive. *)
Theorem y_errs_bounds (draws : list R) :
  Forall (fun u => 0 <= u < 1) draws ->
  exists es : list R,
    y_errs (Array draws) = Ok (Array es) /\
    length es = length draws /\
    Forall (fun e => 0.1 <= e < 1.1) es /\
    forall sg : R, Forall (fun e => 0 < e ^ 2 + sg ^ 2) es.
Proof.
  intros Hdraws. unfold y_errs, py_mul, py_add.
  rewrite binop_float_array, bind_Ok, binop_float_array.
  rewrite <- list_fmap_compose.
  eexists. split; [ reflexivity | ]. split; [ apply length_fmap | ].
  split.
  - apply Forall_fmap. eapply Forall_impl; [ exact Hdraws | ].
    intros u Hu. unfold compose. cbn beta. lra.
  - intros sg. apply Forall_fmap. eapply Forall_impl; [ exact Hdraws | ].
    intros u Hu. unfold compose. cbn beta. pose proof (pow2_ge_0 sg). nra.
Qed.

Lemma y_errs_bounds_witness :
  exists es : list R,
    y_errs (Array [0; 1 / 2]) = Ok (Array es) /\
    length es = length [0; 1 / 2] /\
    Forall (fun e => 0.1 <= e < 1.1) es /\
    forall sg : R, Forall (fun e => 0 < e ^ 2 + sg ^ 2) es.
Proof.
  apply (y_errs_bounds [0; 1 / 2]).
  repeat constructor; lra.
Defined.

(** X13. For noise drawn by [np.random.uniform(-1.5, 1.5, n)], every entry of
    [data = y + noise] lies within [1.5] of the noiseless value
    [0.5 * x_i + 1]. *)
Theorem data_within_noise (noise : list R) :
  length noise = n ->
  Forall (fun v => -1.5 <= v < 1.5) noise ->
  exists xs ds : list R,
    FakeData.x = Array xs /\
    data (Array noise) = Ok (Array ds) /\
    length ds = n /\
    forall i xi di,
      xs !! i = Some xi -> ds !! i = Some di ->
      0.5 * xi + 1 - 1.5 <= di < 0.5 * xi + 1 + 1.5.
Proof.
  intros Hlen Hnoise. destruct y_entrywise as (xs & Hx & Hxs & Hy).
  assert (Lys : length ((fun xi => 0.5 * xi + 1) <$> xs) = length noise).
  { rewrite length_fmap. congruence. }
  exists xs. eexists. split; [ exact Hx | ].
  split.
  { unfold data. rewrite Hy, bind_Ok. unfold py_add, binop.
    rewrite broadcast2_same by exact Lys. reflexivity. }
  split.
  { rewrite length_zip_with, Lys, Nat.min_id. exact Hlen. }
  intros i xi di Hxi Hdi.
  apply lookup_zip_with_Some in Hdi as (yi & v & -> & Hyi & Hv).
  rewrite list_lookup_fmap, Hxi in Hyi. injection Hyi as <-.
  rewrite Forall_lookup in Hnoise. specialize (Hnoise i v Hv). cbn beta in Hnoise.
  lra.
Qed.

Lemma data_within_noise_witness :
  exists xs ds : list R,
    FakeData.x = Array xs /\
    data (Array (replicate 10 1)) = Ok (Array ds) /\
    length ds = n /\
    forall i xi di,
      xs !! i = Some xi -> ds !! i = Some di ->
      0.5 * xi + 1 - 1.5 <= di < 0.5 * xi + 1 + 1.5.
Proof.
  apply (data_within_noise (replicate 10 1)).
  - reflexivity.
  - repeat constructor; lra.
Defined.

(** X16. The log Bayes factor is positive exactly when the evidence of the
    linear model is the larger one, and comparing the models the other way
    round negates it. *)
Theorem lnBF_sign (result_line result_quad : Result) (Z_line Z_quad : R) :
  0 < Z_line -> 0 < Z_quad ->
  log_evidence result_line = ln Z_line ->
  log_evidence result_quad = ln Z_quad ->
  (0 < lnBF result_line result_quad <-> Z_quad < Z_line) /\
  (lnBF result_line result_quad = 0 <-> Z_line = Z_quad) /\
  lnBF result_quad result_line = - lnBF result_line result_quad.
Proof.
  intros Hl Hq El Eq. unfold lnBF. cbn zeta. rewrite El, Eq.
  split; [ | split; [ | lra ] ].
  - split.
    + intros H. apply ln_lt_inv; [ assumption | assumption | lra ].
    + intros H. apply (ln_increasing _ _ Hq) in H. lra.
  - split.
    + intros H. apply ln_inv; [ assumption | assumption | lra ].
    + intros ->. lra.
Qed.

Lemma lnBF_sign_witness :
  (0 < lnBF {| log_evidence := ln 3 |} {| log_evidence := ln 2 |}
   <-> 2 < 3) /\
  (lnBF {| log_evidence := ln 3 |} {| log_evidence := ln 2 |} = 0
   <-> 3 = 2) /\
  lnBF {| log_evidence := ln 2 |} {| log_evidence := ln 3 |}
  = - lnBF {| log_evidence := ln 3 |} {| log_evidence := ln 2 |}.
Proof.
  apply (lnBF_sign {| log_evidence := ln 3 |} {| log_evidence := ln 2 |} 3 2);
    first [ lra | reflexivity ].
Defined.

(** X17. With numbers for the coefficients, [line] and [quadratic] raise
    only when [x] is [None], and then [TypeError]; a number gives a number
    and an array an array of the same length.  With [None] in place of the
    first coefficient both raise [TypeError] whatever the other arguments,
    unless [x] is an empty array: no entry is multiplied then, and with
    every coefficient [None] both return an empty array. *)
Theorem model_functions_domain (x : pyobj) (a b c : R) :
  match x with
  | PyNone =>
      line x (Float a) (Float c) = Raise TypeError /\
      quadratic x (Float a) (Float b) (Float c) = Raise TypeError
  | Float _ =>
      exists v w : R,
        line x (Float a) (Float c) = Ok (Float v) /\
        quadratic x (Float a) (Float b) (Float c) = Ok (Float w)
  | Array xs =>
      exists vs ws : list R,
        line x (Float a) (Float c) = Ok (Array vs) /\
        quadratic x (Float a) (Float b) (Float c) = Ok (Array ws) /\
        length vs = length xs /\ length ws = length xs
  end /\
  match x with
  | Array [] =>
      line x PyNone PyNone = Ok (Array []) /\
      quadratic x PyNone PyNone PyNone = Ok (Array [])
  | _ =>
      (forall c' : pyobj, line x PyNone c' = Raise TypeError) /\
      (forall b' c' : pyobj, quadratic x PyNone b' c' = Raise TypeError)
  end.
Proof.
  split.
  - destruct x as [ | r | xs ].
    + split; reflexivity.
    + do 2 eexists. split; reflexivity.
    + exists ((fun xi => a * xi + c) <$> xs),
        ((fun xi => a * xi ^ 2 + b * xi + c) <$> xs).
      split; [ apply line_array | ]. split.
      * unfold quadratic, py_pow, py_mul, py_add.
        cbn [unop]. rewrite bind_Ok, !binop_float_array, !bind_Ok.
        rewrite <- list_fmap_compose, binop_arrays_same, bind_Ok.
        rewrite binop_array_float, <- list_fmap_compose. reflexivity.
      * rewrite !length_fmap. split; reflexivity.
  - destruct x as [ | r | [ | x0 xs ] ]; split; reflexivity.
Qed.

End DataAndModels.

(** ** The cells hand every exception on *)

Section ScriptPropagation.
Import Py Models Likelihood Bilby Notebook Fit Plots Script Lib Cells.

Lemma propagates_ret {A : Type} (a : A) : propagates (mret a).
Proof. constructor. Qed.

Lemma propagates_callee {A : Type} (r : res A) : propagates (callee r).
Proof.
  unfold propagates, callee. destruct r as [a | e]; cbn.
  - repeat constructor.
  - exists []. split; [ reflexivity | constructor ].
Qed.

Lemma propagates_bind {A B : Type} (m : run A) (k : A -> run B) :
  propagates m -> (forall a, propagates (k a)) -> propagates (m ≫= k).
Proof.
  unfold propagates, mbind, run_bind. intros Hm Hk.
  destruct (value m) as [a | e]; cbn; [ | exact Hm ].
  specialize (Hk a). destruct (value (k a)) as [b | e].
  - apply Forall_app. split; assumption.
  - destruct Hk as (l & Hl & Hnone). exists (invoked m ++ l). split.
    + rewrite Hl. apply app_assoc.
    + apply Forall_app. split; assumption.
Qed.

Lemma propagates_for_in (body : nat -> run unit) (indices : list nat) :
  (forall i, propagates (body i)) -> propagates (for_in body indices).
Proof.
  intros Hbody. induction indices as [ | i rest IH ]; cbn [for_in].
  - apply propagates_ret.
  - apply propagates_bind; [ apply Hbody | intros _; exact IH ].
Qed.

(** What [propagates] says about the outcome. *)
Lemma propagates_outcome {A : Type} (m : run A) :
  propagates m ->
  (forall e, value m = Raise e <-> raised_last e (invoked m)) /\
  ((exists a, value m = Ok a) <-> Forall (eq None) (invoked m)).
Proof.
  unfold propagates. intros Hm.
  assert (Hclash : forall e, Forall (eq None) (invoked m) ->
                     raised_last e (invoked m) -> False).
  { intros e Hnone (l & Hl & _). rewrite Hl in Hnone.
    apply Forall_app in Hnone as [_ Hlast].
    apply Forall_cons in Hlast as [Hlast _]. discriminate Hlast. }
  destruct (value m) as [a | e0]; split.
  - intros e. split; [ discriminate | ].
    intros Hlast. destruct (Hclash e Hm Hlast).
  - split; [ intros _; exact Hm | intros _; exists a; reflexivity ].
  - intros e. split.
    + intros Heq. injection Heq as <-. exact Hm.
    + intros (l & Hl & _). destruct Hm as (l0 & Hl0 & _).
      rewrite Hl in Hl0. apply app_inj_tail in Hl0 as [_ Heq]. congruence.
  - split.
    + intros [a Ha]. discriminate Ha.
    + intros Hnone. destruct (Hclash e0 Hnone Hm).
Qed.



End ScriptPropagation.

(** Every cell is built from callee invocations by sequencing and loops
    alone. *)
Ltac propagate :=
  repeat first
    [ apply propagates_ret
    | apply propagates_callee
    | apply propagates_bind; [ | intros ? ]
    | apply propagates_for_in; intros ?
    | match goal with
      | |- Script.propagates (let '(_, _) := ?p in _) => destruct p
      end ].

Section CellsPropagate.
Import Py Models Likelihood Bilby Notebook Fit Plots Script Lib Cells.
Variable lib : Library.

Lemma finish_plot_propagates x y xfit med_model :
  propagates (finish_plot lib x y xfit med_model).
Proof. unfold finish_plot. propagate. Qed.

Lemma plot_instance_propagates xfit instance :
  propagates (plot_instance lib xfit instance).
Proof. unfold plot_instance. propagate. Qed.

Lemma posterior_values_propagates result key :
  propagates (posterior_values lib result key).
Proof. unfold posterior_values. propagate. Qed.

Lemma print_summary_propagates key r :
  propagates (print_summary lib key r).
Proof. unfold print_summary. propagate. Qed.

End CellsPropagate.

Ltac propagate_cell :=
  repeat first
    [ apply finish_plot_propagates
    | apply plot_instance_propagates
    | apply posterior_values_propagates
    | apply print_summary_propagates
    | progress propagate ].

Section NotebookPropagates.
Import Py Models FakeData Likelihood Bilby Notebook Fit Plots Script Lib Cells.


Lemma notebook_propagates (lib : Library) : propagates (notebook lib).
Proof.
  unfold notebook, cell6, cell7, cell8, cell10, cell12, cell14, cell15,
    cell17, cell19, cell20, cell22, cell24, cell25, cell27, cell29, cell31,
    cell32, cell34, cell36, cell37, cell38, cell42, cell44, cell45, cell46,
    cell48, cell49, cell50, cell52, cell54, sample.
  propagate_cell.
Qed.

(** With a library that always returns, the run reaches the last cell and
    yields the difference of the two log-evidences. *)
Lemma notebook_runs_to_the_end (lnZ_quad : R) :
  value (notebook (quiet_library (Ok {| log_evidence := lnZ_quad |})))
  = Ok (0 - lnZ_quad) /\
  Forall (eq None)
    (invoked (notebook (quiet_library (Ok {| log_evidence := lnZ_quad |})))).
Proof.
  assert (Hvalue :
            value (notebook
                     (quiet_library (Ok {| log_evidence := lnZ_quad |})))
            = Ok (0 - lnZ_quad)) by reflexivity.
  split; [ exact Hvalue | ].
  apply (propagates_outcome _ (notebook_propagates _)).
  eexists. exact Hvalue.
Qed.

End NotebookPropagates.

Section ErrorsPropagate.
Import Py Models FakeData Likelihood Bilby Notebook Fit Plots Script Lib Cells.



End ErrorsPropagate.

Section RaisingCall.
Import Py Models FakeData Likelihood Notebook.

(** C10, counterexample.  Not every call overwrites [sigma], [model] and
    [residual]: on the likelihood that cell 31 builds (here with ten unit
    errors), whose parameters are still [None], the call raises
    [TypeError] and leaves the receiver as it was, the three attributes
    unset. *)
Lemma log_likelihood_raising_call_assigns_nothing :
  (exists self : CustomGaussianLikelihood,
      example2_likelihood (Array (replicate 10 1)) = Ok self /\
      returned (log_likelihood self) = Raise TypeError /\
      self_after (log_likelihood self) = self /\
      sigma (self_after (log_likelihood self)) = None /\
      model (self_after (log_likelihood self)) = None /\
      residual (self_after (log_likelihood self)) = None) /\
  ~ (forall self : CustomGaussianLikelihood,
        is_Some (sigma (self_after (log_likelihood self))) /\
        is_Some (model (self_after (log_likelihood self))) /\
        is_Some (residual (self_after (log_likelihood self)))).
Proof.
  assert (Hrun : exists self : CustomGaussianLikelihood,
             example2_likelihood (Array (replicate 10 1)) = Ok self /\
             returned (log_likelihood self) = Raise TypeError /\
             self_after (log_likelihood self) = self /\
             sigma (self_after (log_likelihood self)) = None /\
             model (self_after (log_likelihood self)) = None /\
             residual (self_after (log_likelihood self)) = None).
  { destruct y_entrywise as (xs & Hx & _ & Hy).
    unfold example2_likelihood. rewrite Hy, bind_Ok.
    eexists. split; [ reflexivity | ]. repeat split. }
  split; [ exact Hrun | ].
  intros Hall. destruct Hrun as (self & _ & _ & _ & Hsigma & _).
  destruct (Hall self) as ([v Hv] & _). congruence.
Qed.

End RaisingCall.
